(** * ch: hexadecimal / character dump of a file

    A shallow embedding of [index.js] (the [HexaFile] class, [validateParams]
    and the top-level driver) together with the properties of the buffered
    byte source and of the line renderer.

    Conventions of the embedding.
    - JavaScript numbers that hold offsets, sizes, counters and byte values are
      integers of [Z]; the two places where the program divides
      ([blockSize / 8] and [size / LINE_WIDTH]) are computed in [Q], which is
      exact there.  [NaN] is [None].
    - A [Buffer] is a list of bytes; reading an index outside of it yields
      [Undefined], as indexing a typed array does.
    - JavaScript strings are [string]; every string the program builds has
      code units below 256.
    - Methods of [HexaFile] mutate [this] and the outside world (file system,
      descriptor table, console) and may throw: they live in the monad [M]. *)

From Stdlib Require Import ZArith QArith Qround Ascii String Sorted Lia.
From Stdlib.Strings Require Import Byte.
From stdpp Require Import base option list gmap strings.

#[local] Open Scope Z_scope.

(** ** JavaScript primitives used by the program *)

Module Js.

(** Values that flow out of a buffer lookup: a number or [undefined]. *)
Inductive value : Type :=
| Num (z : Z)
| Undefined.

(** [a > b] for a value against a number: [undefined] converts to [NaN],
    which compares false. *)
Definition gt (v : value) (z : Z) : bool :=
  match v with Num a => a >? z | Undefined => false end.

Definition ge (v : value) (z : Z) : bool :=
  match v with Num a => a >=? z | Undefined => false end.

Definition lt (v : value) (z : Z) : bool :=
  match v with Num a => a <? z | Undefined => false end.

(** [v !== z] *)
Definition strict_ne (v : value) (z : Z) : bool :=
  match v with Num a => negb (a =? z) | Undefined => true end.

Definition hexDigit (d : Z) : ascii :=
  match d with
  | 0 => "0" | 1 => "1" | 2 => "2" | 3 => "3" | 4 => "4" | 5 => "5"
  | 6 => "6" | 7 => "7" | 8 => "8" | 9 => "9" | 10 => "a" | 11 => "b"
  | 12 => "c" | 13 => "d" | 14 => "e" | _ => "f"
  end%char.

(** Digits of a non-negative integer in radix 16, most significant first,
    pushed in front of [acc]. *)
Fixpoint toHex (fuel : nat) (n : Z) (acc : string) : string :=
  match fuel with
  | O => acc
  | S fuel' =>
      let acc' := String (hexDigit (n mod 16)) acc in
      if n / 16 =? 0 then acc' else toHex fuel' (n / 16) acc'
  end.

Definition hexOfNat (n : Z) : string :=
  toHex (S (Z.to_nat (Z.log2 n))) n EmptyString.

(** [number.toString(16)] on an integer. *)
Definition toString16 (n : Z) : string :=
  if n <? 0 then "-" +:+ hexOfNat (- n) else hexOfNat n.

Fixpoint dropString (n : nat) (s : string) : string :=
  match n, s with
  | O, _ => s
  | S n', String _ s' => dropString n' s'
  | S _, EmptyString => EmptyString
  end.

(** [s.substr(-k)]: the start is [max (length s - k) 0], the slice runs to
    the end of the string. *)
Definition substrFromEnd (k : nat) (s : string) : string :=
  dropString (String.length s - k) s.

(** [String.fromCharCode(code)] for the code units the program produces. *)
Definition fromCharCode (code : Z) : string :=
  String (ascii_of_N (Z.to_N code)) EmptyString.

(** [str.match(re)] for a regular expression that is an alternation of
    literals: some literal occurs somewhere in [str]. *)
Definition occursIn (lit str : string) : bool :=
  match String.index 0 lit str with Some _ => true | None => false end.

Definition matchesAny (lits : list string) (str : string) : bool :=
  existsb (fun lit => occursIn lit str) lits.

(** *** [parseInt] *)

Definition isWhiteSpace (c : ascii) : bool :=
  let n := Z.of_N (N_of_ascii c) in
  ((9 <=? n) && (n <=? 13)) || (n =? 32) || (n =? 160).

Fixpoint skipWhiteSpace (s : string) : string :=
  match s with
  | String c s' => if isWhiteSpace c then skipWhiteSpace s' else s
  | EmptyString => s
  end.

Definition digitValue (c : ascii) : option Z :=
  let n := Z.of_N (N_of_ascii c) in
  if (48 <=? n) && (n <=? 57) then Some (n - 48)
  else if (97 <=? n) && (n <=? 122) then Some (n - 87)
  else if (65 <=? n) && (n <=? 90) then Some (n - 55)
  else None.

(** Longest prefix of digits valid in [radix]; [None] when it is empty. *)
Fixpoint parseDigits (radix : Z) (acc : option Z) (s : string) : option Z :=
  match s with
  | String c s' =>
      match digitValue c with
      | Some d =>
          if d <? radix
          then parseDigits radix (Some (radix * default 0 acc + d)) s'
          else acc
      | None => acc
      end
  | EmptyString => acc
  end.

Definition parseUnsigned (s : string) : option Z :=
  match s with
  | String "0" (String "x" s') | String "0" (String "X" s') =>
      parseDigits 16 None s'
  | _ => parseDigits 10 None s
  end.

(** [parseInt(str)] with no radix argument; [None] is [NaN]. *)
Definition parseInt (str : string) : option Z :=
  match skipWhiteSpace str with
  | String "-" s' => Z.opp <$> parseUnsigned s'
  | String "+" s' => parseUnsigned s'
  | s' => parseUnsigned s'
  end.

(** [a % b] on numbers: [NaN] when the divisor is zero, otherwise the
    remainder of the division truncated towards zero. *)
Definition rem (a b : Q) : option Q :=
  if Qeq_bool b 0 then None
  else let q := (a / b)%Q in
       Some (a - b * inject_Z (Z.quot (Qnum q) (Zpos (Qden q))))%Q.

(** [!x] for a number: true for [NaN] and for zero. *)
Definition not (x : option Q) : bool :=
  match x with None => true | Some q => Qeq_bool q 0 end.

(** Truthiness of an integer number. *)
Definition truthy (z : Z) : bool := negb (z =? 0).

End Js.

(** ** Constants of the program *)

Definition LINE_WIDTH : Z := 192 / 8.
Definition BUFFER_LENGTH : Z := 512 * 1024.
Definition MAX_32BIT : Z := 0xffffffff.

(** ** Pure formatting methods *)

(** [convertOffsetTotHexa(number)] *)
Definition convertOffsetTotHexa (number : Z) : string :=
  if number <=? MAX_32BIT
  then Js.substrFromEnd 8 ("00000000" +:+ Js.toString16 number)
  else Js.substrFromEnd 16 ("0000000000000000" +:+ Js.toString16 number).

(** [convertByteTotHexa(number)] *)
Definition convertByteTotHexa (number : Z) : string :=
  Js.substrFromEnd 2 ("00" +:+ Js.toString16 number).

(** The part of [getByteHexa] after the byte has been read. *)
Definition renderByteHexa (byte : Js.value) : string :=
  match byte with
  | Js.Num b => if Js.gt byte (-1) then convertByteTotHexa b else ".."
  | Js.Undefined => ".."
  end.

(** The part of [getAscii] after the byte has been read. *)
Definition renderAscii (isWindows : bool) (code : Js.value) : string :=
  if ((negb isWindows && Js.gt code 160) || (Js.ge code 32 && Js.lt code 127))
     && Js.strict_ne code 0xAD
  then match code with
       | Js.Num c => Js.fromCharCode c
       | Js.Undefined => "."
       end
  else ".".

(** Reading a lowercase hexadecimal numeral back, to state what the
    formatting functions produce. *)
Definition lowerHexValue (c : ascii) : option Z :=
  let n := Z.of_N (N_of_ascii c) in
  if (48 <=? n) && (n <=? 57) then Some (n - 48)
  else if (97 <=? n) && (n <=? 102) then Some (n - 87)
  else None.

Fixpoint hexValueFrom (acc : Z) (s : string) : option Z :=
  match s with
  | EmptyString => Some acc
  | String c s' =>
      match lowerHexValue c with
      | Some d => hexValueFrom (16 * acc + d) s'
      | None => None
      end
  end.

Definition hexValue (s : string) : option Z :=
  match s with EmptyString => None | _ => hexValueFrom 0 s end.

(** ** The outside world: file system, descriptor table, console *)

Inductive fsentry : Type :=
| Directory (reported_size : Z)
| RegularFile (content : list byte).

(** What [fs.statSync] returns, as far as the program looks at it. *)
Module Stats.
Record t : Type := make { size : Z; isDirectory : bool }.
End Stats.

(** What reaches standard output: a [console.log] line or commander's help. *)
Inductive event : Type :=
| Line (text : string)
| Help.

Record World : Type := {
  platform : string;                    (* process.platform *)
  files : gmap string fsentry;          (* path |-> entry *)
  descriptors : gmap Z (list byte);     (* open descriptor |-> its bytes *)
  console : list event                  (* oldest first *)
}.

Definition isWindows (w : World) : bool := String.eqb (platform w) "win32".

Definition set_descriptors (d : gmap Z (list byte)) (w : World) : World :=
  {| platform := platform w; files := files w; descriptors := d;
     console := console w |}.

Definition emit (e : event) (w : World) : World :=
  {| platform := platform w; files := files w; descriptors := descriptors w;
     console := console w ++ [e] |}.

Definition byteSize (content : list byte) : Z := Z.of_nat (length content).

(** [fs.statSync(path)]; [None] stands for the exception it throws. *)
Definition statSync (w : World) (p : string) : option Stats.t :=
  match files w !! p with
  | Some (RegularFile content) => Some (Stats.make (byteSize content) false)
  | Some (Directory sz) => Some (Stats.make sz true)
  | None => None
  end.

(** The descriptor [open(2)] hands out: the lowest one not in use. *)
Fixpoint lowestFree (fuel : nat) (n : Z) (d : gmap Z (list byte)) : Z :=
  match fuel with
  | O => n
  | S fuel' =>
      match d !! n with
      | Some _ => lowestFree fuel' (n + 1) d
      | None => n
      end
  end.

Definition freshDescriptor (d : gmap Z (list byte)) : Z :=
  lowestFree (size d) 0 d.

(** [fs.readSync(fd, buffer, 0, length, position)] on the bytes the descriptor
    refers to: the bytes available from [position], at most [length] of them,
    overwrite the front of the buffer; the rest of the buffer keeps what it
    held. *)
Definition readInto (content buf : list byte) (len position : Z) : list byte :=
  let chunk := take (Z.to_nat len `min` length buf)%nat
                    (drop (Z.to_nat position) content) in
  chunk ++ drop (length chunk) buf.

(** [buffer[i]] *)
Definition bufferAt (buf : list byte) (i : Z) : Js.value :=
  if 0 <=? i
  then match buf !! Z.to_nat i with
       | Some b => Js.Num (Z.of_N (Byte.to_N b))
       | None => Js.Undefined
       end
  else Js.Undefined.

(** ** The [HexaFile] object *)

Record HexaFile : Type := {
  err : string;
  path : string;
  currentOffset : Z;
  buffer : option (list byte);          (* null until openFile allocates it *)
  blockSize : option Z;                 (* parseInt(blockSize), maybe NaN *)
  bufferStart : Z;
  showOffset : bool;
  showHexa : bool;
  fstat : option Stats.t;               (* undefined until statFile *)
  fd : option Z;                        (* undefined until openFile *)
  currentLine : Z;                      (* assigned by print *)
  maxLine : Z                           (* assigned by print *)
}.

(** [new HexaFile(path, blockSize, startOffset, hexa, offset)].  The start
    offset is passed parsed: [validateParams] lets the constructor run only
    when [parseInt(startOffset)] is a number. *)
Definition newHexaFile (p : string) (bs : string) (startOffset : Z)
    (hexa offset : bool) : HexaFile :=
  {| err := EmptyString; path := p; currentOffset := startOffset;
     buffer := None; blockSize := Js.parseInt bs; bufferStart := startOffset;
     showOffset := offset; showHexa := hexa; fstat := None; fd := None;
     currentLine := 0; maxLine := 0 |}.

Definition set_currentOffset (v : Z) (h : HexaFile) : HexaFile :=
  {| err := err h; path := path h; currentOffset := v; buffer := buffer h;
     blockSize := blockSize h; bufferStart := bufferStart h;
     showOffset := showOffset h; showHexa := showHexa h; fstat := fstat h;
     fd := fd h; currentLine := currentLine h; maxLine := maxLine h |}.

Definition set_buffer (v : option (list byte)) (h : HexaFile) : HexaFile :=
  {| err := err h; path := path h; currentOffset := currentOffset h;
     buffer := v; blockSize := blockSize h; bufferStart := bufferStart h;
     showOffset := showOffset h; showHexa := showHexa h; fstat := fstat h;
     fd := fd h; currentLine := currentLine h; maxLine := maxLine h |}.

Definition set_bufferStart (v : Z) (h : HexaFile) : HexaFile :=
  {| err := err h; path := path h; currentOffset := currentOffset h;
     buffer := buffer h; blockSize := blockSize h; bufferStart := v;
     showOffset := showOffset h; showHexa := showHexa h; fstat := fstat h;
     fd := fd h; currentLine := currentLine h; maxLine := maxLine h |}.

Definition set_fstat (v : option Stats.t) (h : HexaFile) : HexaFile :=
  {| err := err h; path := path h; currentOffset := currentOffset h;
     buffer := buffer h; blockSize := blockSize h;
     bufferStart := bufferStart h; showOffset := showOffset h;
     showHexa := showHexa h; fstat := v; fd := fd h;
     currentLine := currentLine h; maxLine := maxLine h |}.

Definition set_fd (v : option Z) (h : HexaFile) : HexaFile :=
  {| err := err h; path := path h; currentOffset := currentOffset h;
     buffer := buffer h; blockSize := blockSize h;
     bufferStart := bufferStart h; showOffset := showOffset h;
     showHexa := showHexa h; fstat := fstat h; fd := v;
     currentLine := currentLine h; maxLine := maxLine h |}.

Definition set_currentLine (v : Z) (h : HexaFile) : HexaFile :=
  {| err := err h; path := path h; currentOffset := currentOffset h;
     buffer := buffer h; blockSize := blockSize h;
     bufferStart := bufferStart h; showOffset := showOffset h;
     showHexa := showHexa h; fstat := fstat h; fd := fd h;
     currentLine := v; maxLine := maxLine h |}.

Definition set_maxLine (v : Z) (h : HexaFile) : HexaFile :=
  {| err := err h; path := path h; currentOffset := currentOffset h;
     buffer := buffer h; blockSize := blockSize h;
     bufferStart := bufferStart h; showOffset := showOffset h;
     showHexa := showHexa h; fstat := fstat h; fd := fd h;
     currentLine := currentLine h; maxLine := v |}.

(** ** The monad of methods: state is [this] and the world, with exceptions *)

Inductive outcome (A : Type) : Type :=
| Ret (a : A)
| Throw (e : string).
Arguments Ret {A} a.
Arguments Throw {A} e.

Definition M (A : Type) : Type :=
  HexaFile -> World -> outcome A * HexaFile * World.

Definition ret {A} (a : A) : M A := fun h w => (Ret a, h, w).

Definition bind {A B} (m : M A) (k : A -> M B) : M B :=
  fun h w =>
    match m h w with
    | (Ret a, h', w') => k a h' w'
    | (Throw e, h', w') => (Throw e, h', w')
    end.

Definition throw {A} (e : string) : M A := fun h w => (Throw e, h, w).
Definition this : M HexaFile := fun h w => (Ret h, h, w).
Definition world : M World := fun h w => (Ret w, h, w).
Definition update (f : HexaFile -> HexaFile) : M unit :=
  fun h w => (Ret tt, f h, w).
Definition updateWorld (f : World -> World) : M unit :=
  fun h w => (Ret tt, h, f w).
Definition console_log (s : string) : M unit := updateWorld (emit (Line s)).

Declare Scope method_scope.
Delimit Scope method_scope with method.
Notation "x <- m ;; k" := (bind m (fun x => k))
  (at level 100, m at next level, right associativity) : method_scope.
Notation "m ;; k" := (bind m (fun _ => k))
  (at level 100, right associativity) : method_scope.
#[local] Open Scope method_scope.

Definition typeError {A} : M A := throw "TypeError".

(** ** Node's [fs] calls, in the monad *)

(** [fs.openSync(path, 'r')] *)
Definition openSync (p : string) : M Z :=
  w <- world ;;
  match files w !! p with
  | Some (RegularFile content) =>
      let n := freshDescriptor (descriptors w) in
      updateWorld (set_descriptors (<[n := content]> (descriptors w))) ;;
      ret n
  | Some (Directory _) => throw "EISDIR: illegal operation on a directory"
  | None => throw "ENOENT: no such file or directory"
  end.

(** [fs.closeSync(fd)] *)
Definition closeSync (n : Z) : M unit :=
  w <- world ;;
  match descriptors w !! n with
  | Some _ => updateWorld (set_descriptors (delete n (descriptors w)))
  | None => throw "EBADF: bad file descriptor, close"
  end.

(** ** Methods of [HexaFile] *)

(** [statFile()] *)
Definition statFile : M unit :=
  h <- this ;;
  w <- world ;;
  match statSync w (path h) with
  | None => throw ("Error: cannot open file " +:+ path h)
  | Some s =>
      update (set_fstat (Some s)) ;;
      if Stats.isDirectory s then throw "Error: ch only works on files"
      else if negb (Js.truthy (Stats.size s)) then throw "Empty file"
      else ret tt
  end.

Definition warning : string :=
  "Warning: specified start offset is out of bounds, using default start offset of 0".

(** [checkStartOffset()] *)
Definition checkStartOffset : M unit :=
  h <- this ;;
  match fstat h with
  | None => typeError
  | Some s =>
      if currentOffset h >=? Stats.size s
      then console_log warning ;;
           update (set_currentOffset 0) ;;
           update (set_bufferStart 0)
      else ret tt
  end.

(** [readChunk(offset)] *)
Definition readChunk (offset : Z) : M unit :=
  h <- this ;;
  w <- world ;;
  match fd h, buffer h with
  | Some n, Some buf =>
      match descriptors w !! n with
      | Some content =>
          update (set_buffer (Some (readInto content buf BUFFER_LENGTH offset)))
      | None => throw "EBADF: bad file descriptor, read"
      end
  | _, _ => typeError
  end.

(** [Buffer.alloc(n)]: [n] zero bytes. *)
Definition Buffer_alloc (n : Z) : list byte := replicate (Z.to_nat n) x00.

(** [openFile()] *)
Definition openFile : M unit :=
  statFile ;;
  checkStartOffset ;;
  h <- this ;;
  n <- openSync (path h) ;;
  update (set_fd (Some n)) ;;
  update (set_buffer (Some (Buffer_alloc BUFFER_LENGTH))) ;;
  h <- this ;;
  readChunk (currentOffset h).

(** [cleanup()] *)
Definition cleanup : M unit :=
  h <- this ;;
  match fd h with
  | Some n => if Js.truthy n then closeSync n else ret tt
  | None => ret tt
  end.

(** [checkBuffer(offset)] *)
Definition checkBuffer (offset : Z) : M unit :=
  h <- this ;;
  if offset >=? BUFFER_LENGTH + bufferStart h
  then update (set_bufferStart offset) ;;
       readChunk offset
  else ret tt.

(** [readByteFromFile(offset)] *)
Definition readByteFromFile (offset : Z) : M Js.value :=
  h <- this ;;
  match fstat h with
  | None => typeError
  | Some s =>
      if offset <? Stats.size s
      then checkBuffer offset ;;
           h <- this ;;
           match buffer h with
           | Some buf => ret (bufferAt buf (offset - bufferStart h))
           | None => typeError
           end
      else ret (Js.Num (-1))
  end.

(** [getByteHexa(offset)] *)
Definition getByteHexa (offset : Z) : M string :=
  byte <- readByteFromFile offset ;;
  ret (renderByteHexa byte).

(** [getAscii(offset)] *)
Definition getAscii (offset : Z) : M string :=
  code <- readByteFromFile offset ;;
  w <- world ;;
  ret (renderAscii (isWindows w) code).

(** [getOffset()] *)
Definition getOffset : M string :=
  h <- this ;;
  ret (convertOffsetTotHexa (currentOffset h)).

(** The test [pos && !(pos % spacing)] of [generateLine]. *)
Definition groupEnds (spacing : option Q) (pos : Z) : bool :=
  Js.truthy pos
  && Js.not (match spacing with
             | Some s => Js.rem (inject_Z pos) s
             | None => None
             end).

(** The [while (pos < LINE_WIDTH)] loop of [generateLine]; [pos] grows by one
    per turn, so the loop takes [LINE_WIDTH - pos] turns, counted by
    [turns]. *)
Fixpoint generateLine_loop (turns : nat) (spacing : option Q) (pos : Z)
    (hexa ascii : string) : M (string * string) :=
  match turns with
  | O => ret (hexa, ascii)
  | S turns' =>
      h <- this ;;
      x <- getByteHexa (currentOffset h + pos) ;;
      let hexa := hexa +:+ x in
      a <- getAscii (currentOffset h + pos) ;;
      let ascii := ascii +:+ a in
      let pos := pos + 1 in
      let hexa := if groupEnds spacing pos then hexa +:+ "  " else hexa in
      generateLine_loop turns' spacing pos hexa ascii
  end.

(** [generateLine()] *)
Definition generateLine : M string :=
  h <- this ;;
  let spacing := (fun b => inject_Z b / 8)%Q <$> blockSize h in
  columns <- generateLine_loop (Z.to_nat LINE_WIDTH) spacing 0
               EmptyString EmptyString ;;
  let '(hexa, ascii) := columns in
  h <- this ;;
  ret (if showHexa h then hexa +:+ ascii else ascii).

(** [printLine()]; the result tells whether [setImmediate] was called to
    schedule the next line. *)
Definition printLine : M bool :=
  h <- this ;;
  line <- (if showOffset h
           then o <- getOffset ;; ret ((EmptyString +:+ o) +:+ "   ")
           else ret EmptyString) ;;
  g <- generateLine ;;
  let line := line +:+ g in
  update (fun h => set_currentOffset (currentOffset h + LINE_WIDTH) h) ;;
  console_log line ;;
  update (fun h => set_currentLine (currentLine h + 1) h) ;;
  h <- this ;;
  ret (currentLine h <? maxLine h).

(** [print()] *)
Definition print : M bool :=
  h <- this ;;
  match fstat h with
  | None => typeError
  | Some s =>
      update (set_maxLine
                (Qceiling (inject_Z (Stats.size s) / inject_Z LINE_WIDTH))) ;;
      update (set_currentLine 0) ;;
      printLine
  end.

(** The event loop running the callbacks that [printLine] hands to
    [setImmediate]: each callback is one more [printLine].  [None] when the
    fuel does not reach the end of the queue. *)
Fixpoint runImmediates (fuel : nat) (pending : bool) (h : HexaFile)
    (w : World) : option (outcome unit * HexaFile * World) :=
  match pending, fuel with
  | false, _ => Some (Ret tt, h, w)
  | true, O => None
  | true, S fuel' =>
      match printLine h w with
      | (Ret again, h', w') => runImmediates fuel' again h' w'
      | (Throw e, h', w') => Some (Throw e, h', w')
      end
  end.

(** ** The program around the class *)

(** [validateParams(program)]: the two options it reads, as the strings
    [String(...)] and [parseInt(...)] see them.  The second message is
    followed on its line by a print-out of [program], left out here. *)
Definition validateParams (blockSize startOffset : string) (w : World)
    : bool * World :=
  if negb (Js.matchesAny ["8"; "16"; "32"; "64"] blockSize)
  then (false, emit (Line "Error: size block can only be 8, 16, 32, 64") w)
  else
    match Js.parseInt startOffset with
    | None => (false, emit (Line "Error: start offset must be > 0") w)
    | Some n =>
        if n <? 0
        then (false, emit (Line "Error: start offset must be > 0") w)
        else (true, w)
    end.

(** The top-level [cleanup()]: close the session if there is one, then
    [process.exit()]. *)
Definition globalCleanup (hexa : option HexaFile) (w : World)
    : outcome unit * option HexaFile * World :=
  match hexa with
  | Some h => let '(r, h', w') := cleanup h w in (r, Some h', w')
  | None => (Ret tt, None, w)
  end.

Record Invocation : Type := {
  args : list string;
  optBlockSize : string;
  optStartOffset : string;
  optHexa : bool;
  optOffset : bool
}.

Inductive ending : Type :=
| HelpAndExit                 (* program.help() *)
| Dumped                      (* every scheduled line was printed *)
| Caught (e : string)         (* the catch block ran, then cleanup() *)
| Uncaught (e : string).      (* an exception left a callback *)

(** The script's last statement, followed by the event loop. *)
Definition main (inv : Invocation) (fuel : nat) (w : World)
    : option (ending * option HexaFile * World) :=
  match args inv with
  | [] => Some (HelpAndExit, None, emit Help w)
  | p :: _ =>
      let '(valid, w) :=
        validateParams (optBlockSize inv) (optStartOffset inv) w in
      match valid, Js.parseInt (optStartOffset inv) with
      | true, Some startOffset =>
          let hexa := newHexaFile p (optBlockSize inv) startOffset
                        (optHexa inv) (optOffset inv) in
          match (openFile ;; print) hexa w with
          | (Ret again, h, w) =>
              match runImmediates fuel again h w with
              | Some (Ret _, h, w) => Some (Dumped, Some h, w)
              | Some (Throw e, h, w) => Some (Uncaught e, Some h, w)
              | None => None
              end
          | (Throw e, h, w) =>
              let w := emit (Line e) w in
              let '(r, hexa, w) := globalCleanup (Some h) w in
              match r with
              | Ret _ => Some (Caught e, hexa, w)
              | Throw e' => Some (Uncaught e', hexa, w)
              end
          end
      | _, _ => Some (HelpAndExit, None, emit Help w)
      end
  end.

(** [print()] and the callbacks it leaves behind, run to the end. *)
Definition printAll (fuel : nat) (h : HexaFile) (w : World)
    : option (outcome unit * HexaFile * World) :=
  match print h w with
  | (Ret again, h', w') => runImmediates fuel again h' w'
  | (Throw e, h', w') => Some (Throw e, h', w')
  end.

(** A caller that asks for the bytes at [offsets] in turn; next to each
    answer it notes where the window started when the answer was read. *)
Fixpoint readSequence (offsets : list Z) : M (list (Z * Z * Js.value)) :=
  match offsets with
  | [] => ret []
  | o :: rest =>
      v <- readByteFromFile o ;;
      h <- this ;;
      served <- readSequence rest ;;
      ret ((o, bufferStart h, v) :: served)
  end.

(** ** Reference definitions: a dump read straight from the bytes of the file *)

(** The byte of the file at [offset], or the end-of-file value. *)
Definition byteOfFile (content : list byte) (offset : Z) : Js.value :=
  if offset <? byteSize content then bufferAt content offset else Js.Num (-1).

(** The hexadecimal and character columns of the line that starts at
    [start], positions [pos] onwards. *)
Fixpoint columnsAt (win : bool) (spacing : option Q) (content : list byte)
    (start : Z) (turns : nat) (pos : Z) (hexa ascii : string)
    : string * string :=
  match turns with
  | O => (hexa, ascii)
  | S turns' =>
      let b := byteOfFile content (start + pos) in
      let hexa := hexa +:+ renderByteHexa b in
      let hexa := if groupEnds spacing (pos + 1) then hexa +:+ "  " else hexa in
      columnsAt win spacing content start turns' (pos + 1) hexa
                (ascii +:+ renderAscii win b)
  end.

Definition spacingOf (h : HexaFile) : option Q :=
  (fun b => inject_Z b / 8)%Q <$> blockSize h.

(** The whole line that starts at [start], under the options of [h]. *)
Definition lineAt (win : bool) (h : HexaFile) (content : list byte)
    (start : Z) : string :=
  let '(hexa, ascii) :=
    columnsAt win (spacingOf h) content start (Z.to_nat LINE_WIDTH) 0
              EmptyString EmptyString in
  (if showOffset h
   then (EmptyString +:+ convertOffsetTotHexa start) +:+ "   "
   else EmptyString)
  +:+ (if showHexa h then hexa +:+ ascii else ascii).

(** The lines of a dump of [n] rows from [start] on. *)
Definition linesFrom (win : bool) (h : HexaFile) (content : list byte)
    (start : Z) (n : nat) : list event :=
  map (fun i => Line (lineAt win h content (start + LINE_WIDTH * Z.of_nat i)))
      (seq 0 n).

(** Where the two-space separators of a hexadecimal column sit: the column is
    read as cells of two characters and separators of two spaces, and the
    result lists, for each separator, how many cells precede it.  [None] when
    the column is not of that shape. *)
Fixpoint separatorsAfter (cells : nat) (s : string) : option (list nat) :=
  match s with
  | EmptyString => Some []
  | String _ EmptyString => None
  | String c1 (String c2 s') =>
      if Ascii.eqb c1 " " && Ascii.eqb c2 " "
      then cons cells <$> separatorsAfter cells s'
      else if Ascii.eqb c1 " " || Ascii.eqb c2 " " then None
      else separatorsAfter (S cells) s'
  end.

(** A run of [n] zero digits, the padding of the formatting methods. *)
Fixpoint zeros (n : nat) : string :=
  match n with O => EmptyString | S n' => String "0" (zeros n') end.

(** ** Invariants of an open session *)

(** The buffer holds the bytes of the file from [start] on, as far as the
    file and the buffer reach. *)
Definition holdsWindow (content : list byte) (start : Z) (buf : list byte)
    : Prop :=
  length buf = Z.to_nat BUFFER_LENGTH /\
  forall i : nat,
    (i < length buf)%nat ->
    (Z.to_nat start + i < length content)%nat ->
    buf !! i = content !! (Z.to_nat start + i)%nat.

(** [h] is a session on a file of bytes [content], opened in world [w]. *)
Record Session (content : list byte) (h : HexaFile) (w : World) : Prop := {
  session_fstat : fstat h = Some (Stats.make (byteSize content) false);
  session_fd : exists n, fd h = Some n /\ descriptors w !! n = Some content;
  session_window :
    exists buf, buffer h = Some buf /\ holdsWindow content (bufferStart h) buf;
  session_start : 0 <= bufferStart h
}.

(** The same object up to the window: what a byte read may change. *)
Definition moveWindow (start : Z) (buf : list byte) (h : HexaFile) : HexaFile :=
  set_buffer (Some buf) (set_bufferStart start h).

(** The world with several more events on the console. *)
Definition logged (es : list event) (w : World) : World :=
  {| platform := platform w; files := files w; descriptors := descriptors w;
     console := console w ++ es |}.

(** The object after [printLine]: the window may have moved, the cursor is
    one line further. *)
Definition afterLine (start : Z) (buf : list byte) (h : HexaFile) : HexaFile :=
  set_currentLine (currentLine h + 1)
    (set_currentOffset (currentOffset h + LINE_WIDTH)
       (moveWindow start buf h)).

(** The start offset after [checkStartOffset]. *)
Definition startAfterCheck (content : list byte) (startOffset : Z) : Z :=
  if startOffset >=? byteSize content then 0 else startOffset.

(** The object [openFile] leaves behind on a regular, non-empty file. *)
Definition opened (content : list byte) (p bs : string) (start : Z)
    (hexa offset : bool) (n : Z) : HexaFile :=
  {| err := EmptyString; path := p; currentOffset := start;
     buffer := Some (readInto content (Buffer_alloc BUFFER_LENGTH)
                              BUFFER_LENGTH start);
     blockSize := Js.parseInt bs; bufferStart := start;
     showOffset := offset; showHexa := hexa;
     fstat := Some (Stats.make (byteSize content) false); fd := Some n;
     currentLine := 0; maxLine := 0 |}.

(** [Math.ceil(size / LINE_WIDTH)] as a count. *)
Definition lineCount (content : list byte) : nat :=
  Z.to_nat (Qceiling (inject_Z (byteSize content) / inject_Z LINE_WIDTH)).

(** The hexadecimal column alone, built front to back. *)
Fixpoint hexColumn (spacing : option Q) (content : list byte) (start : Z)
    (turns : nat) (pos : Z) : string :=
  match turns with
  | O => EmptyString
  | S turns' =>
      renderByteHexa (byteOfFile content (start + pos))
      +:+ (if groupEnds spacing (pos + 1) then "  " else EmptyString)
      +:+ hexColumn spacing content start turns' (pos + 1)
  end.

(** The character column alone. *)
Fixpoint asciiColumn (win : bool) (content : list byte) (start : Z)
    (turns : nat) (pos : Z) : string :=
  match turns with
  | O => EmptyString
  | S turns' =>
      renderAscii win (byteOfFile content (start + pos))
      +:+ asciiColumn win content start turns' (pos + 1)
  end.

(** After which cells of a line the test of [generateLine] adds a separator,
    counting cells from [cells]. *)
Fixpoint groupEndsAfter (spacing : option Q) (turns : nat) (pos : Z)
    (cells : nat) : list nat :=
  match turns with
  | O => []
  | S turns' =>
      let rest := groupEndsAfter spacing turns' (pos + 1) (S cells) in
      if groupEnds spacing (pos + 1) then S cells :: rest else rest
  end.

(** A cell of the hexadecimal column: two characters, neither a space. *)
Definition isCell (s : string) : bool :=
  match s with
  | String c1 (String c2 EmptyString) =>
      negb (Ascii.eqb c1 " ") && negb (Ascii.eqb c2 " ")
  | _ => false
  end.

Definition withStartOffset (s : string) (inv : Invocation) : Invocation :=
  {| args := args inv; optBlockSize := optBlockSize inv; optStartOffset := s;
     optHexa := optHexa inv; optOffset := optOffset inv |}.

(** A small world to run examples in: a ten-byte file, the three standard
    descriptors in use. *)
Definition sampleBytes : list byte :=
  [x41; x42; x43; x44; x45; x46; x47; x48; x49; x4a].

Definition sampleWorld : World :=
  {| platform := "linux";
     files := {[ "abc.bin" := RegularFile sampleBytes ]};
     descriptors := {[ 0 := []; 1 := []; 2 := [] ]};
     console := [] |}.

(** The sample file once opened on descriptor 3, dumping from [start]. *)
Definition sampleOpened (bs : string) (start : Z) : HexaFile :=
  opened sampleBytes "abc.bin" bs start true true 3.

Definition sampleOpenWorld : World :=
  set_descriptors (<[3 := sampleBytes]> (descriptors sampleWorld)) sampleWorld.

Definition sampleInvocation (bs so : string) : Invocation :=
  {| args := ["abc.bin"]; optBlockSize := bs; optStartOffset := so;
     optHexa := true; optOffset := true |}.

(** ** Further definitions: reading a dump back, and the broken pipe *)

(** The number a byte stands for. *)
Definition byteValue (b : byte) : Z := Z.of_N (Byte.to_N b).

(** The values of the [n] bytes of the file from [start] on, fewer when the
    file ends before. *)
Definition fileSlice (content : list byte) (start : Z) (n : nat) : list Z :=
  byteValue <$> take n (drop (Z.to_nat start) content).

(** Reading a hexadecimal column back: separators and end-of-file cells are
    skipped, every other cell must be two lowercase hexadecimal digits and
    gives one byte value. *)
Fixpoint decodeHexa (s : string) : option (list Z) :=
  match s with
  | EmptyString => Some []
  | String _ EmptyString => None
  | String c1 (String c2 s') =>
      if Ascii.eqb c1 " " && Ascii.eqb c2 " " then decodeHexa s'
      else if Ascii.eqb c1 "." && Ascii.eqb c2 "." then decodeHexa s'
      else match lowerHexValue c1, lowerHexValue c2 with
           | Some a, Some b => cons (16 * a + b) <$> decodeHexa s'
           | _, _ => None
           end
  end.

(** The characters of a list of code units, and a run of dots. *)
Fixpoint textOf (codes : list Z) : string :=
  match codes with
  | [] => EmptyString
  | c :: codes' => Js.fromCharCode c +:+ textOf codes'
  end.

Fixpoint dots (n : nat) : string :=
  match n with O => EmptyString | S n' => String "." (dots n') end.

(** The cell counts after which a line groups its cells, when a group has
    [g] cells. *)
Definition multiplesOf (g : nat) : list nat :=
  filter (fun c => (c mod g =? 0)%nat) (seq 1 (Z.to_nat LINE_WIDTH)).

(** The length of a line of the dump at offset [start] under the options of
    [h]. *)
Definition lineLength (h : HexaFile) (start : Z) : nat :=
  ((if showOffset h
    then (if (start <=? MAX_32BIT)%Z then 8 else 16) + 3 else 0)
   + (if showHexa h
      then 2 * Z.to_nat LINE_WIDTH
           + 2 * length (groupEndsAfter (spacingOf h) (Z.to_nat LINE_WIDTH) 0 0)
      else 0)
   + Z.to_nat LINE_WIDTH)%nat.

(** The event loop when SIGPIPE, or EPIPE on standard output, arrives after
    [k] of the scheduled callbacks have run.  Node runs the handler, the
    top-level [cleanup], as one more callback of the loop, never inside a
    [printLine]; the handler ends the process.  The boolean tells whether the
    handler ran: it does not when the queue is empty before, or when a
    callback throws. *)
Fixpoint runUntilSignal (k : nat) (pending : bool) (h : HexaFile) (w : World)
    : bool * (outcome unit * option HexaFile * World) :=
  match pending, k with
  | false, _ => (false, (Ret tt, Some h, w))
  | true, O => (true, globalCleanup (Some h) w)
  | true, S k' =>
      match printLine h w with
      | (Ret again, h', w') => runUntilSignal k' again h' w'
      | (Throw e, h', w') => (false, (Throw e, Some h', w'))
      end
  end.

(** The object when [statFile] throws after it has stored the stats. *)
Definition statted (p bs : string) (startOffset : Z) (hexa offset : bool)
    (s : Stats.t) : HexaFile :=
  set_fstat (Some s) (newHexaFile p bs startOffset hexa offset).

(** Worlds like the sample one, with other files. *)
Definition worldWith (entries : gmap string fsentry) : World :=
  {| platform := "linux"; files := entries;
     descriptors := descriptors sampleWorld; console := [] |}.

(** A file of sixty bytes, three lines of a dump. *)
Definition sixtyBytes : list byte := replicate 60 x41.

(** * Properties *)

(** Splitting conjunctions only, and unfolding the operations of the monad. *)
Ltac conjs := repeat match goal with |- _ /\ _ => split end.

Ltac mrun :=
  cbv beta iota zeta
      delta [bind ret this world update updateWorld console_log throw
             typeError].

(** ** Strings *)

Section StringFacts.

Lemma length_append (s1 s2 : string) :
  String.length (s1 +:+ s2) = (String.length s1 + String.length s2)%nat.
Proof. induction s1 as [|c s1 IH]; simpl; [reflexivity | now rewrite IH]. Qed.

Lemma append_cons (c : ascii) (s1 s2 : string) :
  String c s1 +:+ s2 = String c (s1 +:+ s2).
Proof. reflexivity. Qed.

Lemma append_nil (s : string) : EmptyString +:+ s = s.
Proof. reflexivity. Qed.

Lemma append_assoc (s1 s2 s3 : string) :
  (s1 +:+ s2) +:+ s3 = s1 +:+ (s2 +:+ s3).
Proof.
  induction s1 as [|c s1 IH]; [reflexivity|].
  rewrite !append_cons. now f_equal.
Qed.

Lemma append_empty_r (s : string) : s +:+ EmptyString = s.
Proof.
  induction s as [|c s IH]; [reflexivity|].
  rewrite append_cons. now f_equal.
Qed.

Lemma dropString_append (n : nat) (s1 s2 : string) :
  (n <= String.length s1)%nat ->
  Js.dropString n (s1 +:+ s2) = Js.dropString n s1 +:+ s2.
Proof.
  revert s1; induction n as [|n IH]; intros s1 Hn; [reflexivity|].
  destruct s1 as [|c s1]; simpl in *; [lia | apply IH; lia].
Qed.

Lemma length_dropString (n : nat) (s : string) :
  String.length (Js.dropString n s) = (String.length s - n)%nat.
Proof.
  revert s; induction n as [|n IH]; intros s; simpl; [lia|].
  destruct s as [|c s]; simpl; [reflexivity | apply IH].
Qed.

End StringFacts.

(** ** Hexadecimal numerals *)

Section HexFacts.

Lemma dropString_zeros (n k : nat) : Js.dropString n (zeros k) = zeros (k - n).
Proof.
  revert k; induction n as [|n IH]; intros k; simpl.
  - now rewrite Nat.sub_0_r.
  - destruct k as [|k]; simpl; [reflexivity | apply IH].
Qed.

Lemma length_zeros (k : nat) : String.length (zeros k) = k.
Proof. induction k; simpl; congruence. Qed.

Lemma hexValueFrom_zeros (k : nat) (s : string) :
  hexValueFrom 0 (zeros k +:+ s) = hexValueFrom 0 s.
Proof. induction k as [|k IH]; simpl; [reflexivity | exact IH]. Qed.

Lemma hexValueFrom_append (s1 s2 : string) (a : Z) :
  hexValueFrom a (s1 +:+ s2) =
  match hexValueFrom a s1 with
  | Some v => hexValueFrom v s2
  | None => None
  end.
Proof.
  revert a; induction s1 as [|c s1 IH]; intros a; simpl; [reflexivity|].
  destruct (lowerHexValue c); [apply IH | reflexivity].
Qed.

Lemma hexValue_nonempty (s : string) :
  (1 <= String.length s)%nat -> hexValue s = hexValueFrom 0 s.
Proof. destruct s; simpl; [lia | reflexivity]. Qed.

Lemma lowerHexValue_hexDigit (d : Z) :
  0 <= d < 16 -> lowerHexValue (Js.hexDigit d) = Some d.
Proof.
  intros Hd.
  assert (Hcases : d = 0 \/ d = 1 \/ d = 2 \/ d = 3 \/ d = 4 \/ d = 5 \/
                   d = 6 \/ d = 7 \/ d = 8 \/ d = 9 \/ d = 10 \/ d = 11 \/
                   d = 12 \/ d = 13 \/ d = 14 \/ d = 15) by lia.
  repeat (destruct Hcases as [-> | Hcases]; [reflexivity|]).
  subst d; reflexivity.
Qed.

(** What [toHex] pushes in front of the accumulator: at least one digit, no
    more digits than the number needs, and they read back as the number. *)
Lemma toHex_spec (fuel : nat) :
  forall (n : Z) (acc : string),
    0 <= n < 16 ^ Z.of_nat (S fuel) ->
    exists ds,
      Js.toHex (S fuel) n acc = ds +:+ acc /\
      (1 <= String.length ds)%nat /\
      (forall k, 0 < k -> n < 16 ^ k -> Z.of_nat (String.length ds) <= k) /\
      forall a, hexValueFrom a ds
                = Some (a * 16 ^ Z.of_nat (String.length ds) + n).
Proof.
  induction fuel as [|fuel IH]; intros n acc Hn.
  - exists (String (Js.hexDigit (n mod 16)) EmptyString).
    change (16 ^ Z.of_nat 1) with 16 in Hn.
    assert (Hq : n / 16 = 0) by (apply Z.div_small; lia).
    assert (Hr : n mod 16 = n) by (apply Z.mod_small; lia).
    repeat split.
    + simpl Js.toHex. now destruct (n / 16 =? 0).
    + simpl; lia.
    + intros k Hk _; simpl; lia.
    + intros a; simpl. rewrite lowerHexValue_hexDigit by lia.
      f_equal; lia.
  - assert (Hr : 0 <= n mod 16 < 16) by (apply Z.mod_pos_bound; lia).
    assert (Hdm : n = 16 * (n / 16) + n mod 16) by (apply Z.div_mod; lia).
    change (Js.toHex (S (S fuel)) n acc)
      with (let acc' := String (Js.hexDigit (n mod 16)) acc in
            if n / 16 =? 0 then acc' else Js.toHex (S fuel) (n / 16) acc').
    cbv zeta.
    destruct (Z.eqb_spec (n / 16) 0) as [Hq | Hq].
    + exists (String (Js.hexDigit (n mod 16)) EmptyString).
      repeat split.
      * simpl; lia.
      * intros k Hk _; simpl; lia.
      * intros a; simpl. rewrite lowerHexValue_hexDigit by lia.
        f_equal; lia.
    + assert (Hq0 : 0 < n / 16).
      { assert (0 <= n / 16) by (apply Z.div_pos; lia). lia. }
      assert (Hbound : n / 16 < 16 ^ Z.of_nat (S fuel)).
      { apply Z.div_lt_upper_bound; [lia|].
        replace (Z.of_nat (S (S fuel))) with (Z.succ (Z.of_nat (S fuel)))
          in Hn by lia.
        rewrite Z.pow_succ_r in Hn by lia. lia. }
      destruct (IH (n / 16) (String (Js.hexDigit (n mod 16)) acc))
        as (ds & Heq & Hlen & Hmin & Hval); [lia|].
      exists (ds +:+ String (Js.hexDigit (n mod 16)) EmptyString).
      repeat split.
      * rewrite Heq, append_assoc. reflexivity.
      * rewrite length_append; simpl; lia.
      * intros k Hk Hnk. rewrite length_append; simpl.
        assert (Hk1 : 0 < k - 1).
        { destruct (Z.eq_dec k 1) as [-> | ?]; [|lia].
          change (16 ^ 1) with 16 in Hnk. lia. }
        assert (n / 16 < 16 ^ (k - 1)).
        { apply Z.div_lt_upper_bound; [lia|].
          replace k with (Z.succ (k - 1)) in Hnk by lia.
          rewrite Z.pow_succ_r in Hnk by lia. lia. }
        specialize (Hmin (k - 1) Hk1 H). lia.
      * intros a. rewrite hexValueFrom_append, Hval. simpl.
        rewrite lowerHexValue_hexDigit by lia.
        rewrite length_append; simpl.
        replace (Z.of_nat (String.length ds + 1))
          with (Z.succ (Z.of_nat (String.length ds))) by lia.
        rewrite Z.pow_succ_r by lia. f_equal; lia.
Qed.

(** [toString(16)] of a non-negative integer. *)
Lemma toString16_spec (n : Z) :
  0 <= n ->
  exists ds,
    Js.toString16 n = ds /\
    (1 <= String.length ds)%nat /\
    (forall k, 0 < k -> n < 16 ^ k -> Z.of_nat (String.length ds) <= k) /\
    hexValueFrom 0 ds = Some n.
Proof.
  intros Hn. unfold Js.toString16.
  destruct (Z.ltb_spec n 0) as [? | _]; [lia|].
  unfold Js.hexOfNat.
  assert (Hfuel : 0 <= n < 16 ^ Z.of_nat (S (Z.to_nat (Z.log2 n)))).
  { split; [lia|].
    pose proof (Z.log2_nonneg n) as Hl.
    replace (Z.of_nat (S (Z.to_nat (Z.log2 n)))) with (Z.succ (Z.log2 n))
      by lia.
    destruct (Z.eq_dec n 0) as [-> | Hne].
    - change (Z.log2 0) with 0. reflexivity.
    - pose proof (Z.log2_spec n ltac:(lia)) as [_ Hup].
      eapply Z.lt_le_trans; [exact Hup|].
      apply Z.pow_le_mono_l; lia. }
  destruct (toHex_spec _ n EmptyString Hfuel) as (ds & Heq & Hlen & Hmin & Hval).
  exists ds. rewrite Heq, append_empty_r.
  repeat split; auto.
Qed.

(** Left-padding with zeros and keeping the last [k] characters. *)
Lemma substrFromEnd_pad (k : nat) (ds : string) (n : Z) :
  (1 <= String.length ds <= k)%nat ->
  hexValueFrom 0 ds = Some n ->
  String.length (Js.substrFromEnd k (zeros k +:+ ds)) = k /\
  hexValue (Js.substrFromEnd k (zeros k +:+ ds)) = Some n.
Proof.
  intros Hlen Hval. unfold Js.substrFromEnd.
  rewrite length_append, length_zeros.
  replace (k + String.length ds - k)%nat with (String.length ds) by lia.
  rewrite dropString_append by (rewrite length_zeros; lia).
  rewrite dropString_zeros.
  split.
  - rewrite length_append, length_zeros. lia.
  - rewrite hexValue_nonempty by (rewrite length_append; lia).
    now rewrite hexValueFrom_zeros.
Qed.

End HexFacts.

(** ** The window of the byte source *)

Section Window.

Variable content : list byte.

Lemma readInto_holdsWindow (buf : list byte) (pos : Z) :
  length buf = Z.to_nat BUFFER_LENGTH ->
  holdsWindow content pos (readInto content buf BUFFER_LENGTH pos).
Proof.
  unfold holdsWindow, readInto.
  generalize (Z.to_nat BUFFER_LENGTH) as cap. intros cap Hbuf.
  rewrite Hbuf, Nat.min_id.
  set (chunk := take cap (drop (Z.to_nat pos) content)).
  assert (Hchunk : length chunk
                   = Nat.min cap (length content - Z.to_nat pos)).
  { unfold chunk. now rewrite length_take, length_drop. }
  split.
  - rewrite length_app, length_drop. lia.
  - intros i Hi Hin.
    rewrite length_app, length_drop in Hi.
    rewrite lookup_app_l by lia.
    unfold chunk. rewrite lookup_take_lt by lia.
    now rewrite lookup_drop.
Qed.

Lemma bufferAt_holdsWindow (start offset : Z) (buf : list byte) :
  holdsWindow content start buf ->
  0 <= start <= offset ->
  offset < byteSize content ->
  offset - start < BUFFER_LENGTH ->
  bufferAt buf (offset - start) = bufferAt content offset.
Proof.
  intros [Hlen Hwin] Hstart Hsize Hcap. unfold bufferAt, byteSize in *.
  destruct (Z.leb_spec 0 (offset - start)) as [_ | ?]; [|lia].
  destruct (Z.leb_spec 0 offset) as [_ | ?]; [|lia].
  rewrite Hwin by lia.
  replace (Z.to_nat start + Z.to_nat (offset - start))%nat
    with (Z.to_nat offset) by lia.
  reflexivity.
Qed.

Lemma moveWindow_same (h : HexaFile) (buf : list byte) :
  buffer h = Some buf -> moveWindow (bufferStart h) buf h = h.
Proof. destruct h; simpl; intros ->; reflexivity. Qed.

Lemma moveWindow_twice (s1 s2 : Z) (b1 b2 : list byte) (h : HexaFile) :
  moveWindow s2 b2 (moveWindow s1 b1 h) = moveWindow s2 b2 h.
Proof. reflexivity. Qed.

Lemma Session_emit (e : event) (h : HexaFile) (w : World) :
  Session content h w -> Session content h (emit e w).
Proof. intros [? ? ? ?]; split; assumption. Qed.

(** End of file: the sentinel, and nothing moves. *)
Lemma readByteFromFile_eof (h : HexaFile) (w : World) (offset : Z) :
  fstat h = Some (Stats.make (byteSize content) false) ->
  byteSize content <= offset ->
  readByteFromFile offset h w = (Ret (Js.Num (-1)), h, w).
Proof.
  intros Hstat Hoff.
  unfold readByteFromFile, bind, this. rewrite Hstat. cbn [Stats.size].
  destruct (Z.ltb_spec offset (byteSize content)); [lia | reflexivity].
Qed.

(** A byte of the file at or after the window start: the window moves to
    the offset when the offset lies beyond it, and the byte comes from the
    buffer at [offset - start]. *)
Lemma readByteFromFile_served (h : HexaFile) (w : World) (offset : Z) :
  Session content h w ->
  bufferStart h <= offset < byteSize content ->
  exists start buf,
    readByteFromFile offset h w
    = (Ret (bufferAt buf (offset - start)), moveWindow start buf h, w) /\
    Session content (moveWindow start buf h) w /\
    start = (if offset >=? BUFFER_LENGTH + bufferStart h
             then offset else bufferStart h) /\
    0 <= offset - start < BUFFER_LENGTH /\
    bufferAt buf (offset - start) = bufferAt content offset.
Proof.
  intros [Hstat (n & Hfd & Hdesc) (buf & Hbuf & Hwin) Hstart] Hoff.
  unfold readByteFromFile, bind, this. rewrite Hstat. cbn [Stats.size].
  destruct (Z.ltb_spec offset (byteSize content)) as [_ | ?]; [|lia].
  unfold checkBuffer, bind, this.
  destruct (Z.geb_spec offset (BUFFER_LENGTH + bufferStart h)) as [Hfar | Hnear].
  - (* refill *)
    unfold update, readChunk, bind, this, world, update.
    cbn [fd buffer set_bufferStart]. rewrite Hfd, Hbuf, Hdesc.
    cbn [buffer bufferStart set_buffer set_bufferStart].
    pose proof (readInto_holdsWindow buf offset (proj1 Hwin)) as Hnew.
    exists offset, (readInto content buf BUFFER_LENGTH offset).
    assert (0 < BUFFER_LENGTH) by reflexivity.
    repeat split; cbn [fstat fd buffer bufferStart moveWindow set_buffer
                        set_bufferStart]; try lia; try assumption.
    + exists n; split; assumption.
    + eexists; split; [reflexivity | exact Hnew].
    + apply bufferAt_holdsWindow; [exact Hnew | lia | lia | lia].
  - (* the window stays *)
    unfold ret. rewrite Hbuf.
    exists (bufferStart h), buf.
    rewrite moveWindow_same by assumption.
    repeat split; try lia; try assumption.
    + exists n; split; assumption.
    + exists buf; split; assumption.
    + apply bufferAt_holdsWindow; [exact Hwin | lia | lia | lia].
Qed.

(** Both cases at once, for a reader that walks forward. *)
Lemma readByteFromFile_forward (h : HexaFile) (w : World) (offset : Z) :
  Session content h w ->
  bufferStart h <= offset ->
  exists start buf,
    readByteFromFile offset h w
    = (Ret (byteOfFile content offset), moveWindow start buf h, w) /\
    Session content (moveWindow start buf h) w /\
    bufferStart h <= start <= offset /\
    (offset < byteSize content -> 0 <= offset - start < BUFFER_LENGTH).
Proof.
  intros Hs Hoff. unfold byteOfFile.
  destruct (Z.ltb_spec offset (byteSize content)) as [Hin | Hout].
  - destruct (readByteFromFile_served h w offset Hs ltac:(lia))
      as (start & buf & Heq & Hs' & Hstart & Hidx & Hbyte).
    exists start, buf. rewrite Heq, Hbyte.
    conjs; try reflexivity; try assumption; try lia.
    all: subst start; destruct (offset >=? _); lia.
  - destruct Hs as [Hstat Hfd (buf & Hbuf & Hwin) Hstart].
    exists (bufferStart h), buf.
    rewrite moveWindow_same by assumption.
    rewrite (readByteFromFile_eof h w offset Hstat Hout).
    conjs; try reflexivity; try lia.
    split; try assumption. exists buf; split; assumption.
Qed.

End Window.

(** ** The line renderer reads the file *)

Section Renderer.

Variable content : list byte.

Lemma logged_nil (w : World) : logged [] w = w.
Proof. destruct w; unfold logged; simpl. now rewrite app_nil_r. Qed.

Lemma logged_emit (e : event) (es : list event) (w : World) :
  logged es (emit e w) = logged (e :: es) w.
Proof. unfold logged, emit; simpl. now rewrite <- app_assoc. Qed.

Lemma Session_logged (es : list event) (h : HexaFile) (w : World) :
  Session content h w -> Session content h (logged es w).
Proof. intros [? ? ? ?]; split; assumption. Qed.

Lemma generateLine_loop_spec (turns : nat) :
  forall (spacing : option Q) (pos : Z) (hexa ascii : string)
         (h : HexaFile) (w : World),
    Session content h w ->
    bufferStart h <= currentOffset h + pos ->
    exists start buf,
      generateLine_loop turns spacing pos hexa ascii h w
      = (Ret (columnsAt (isWindows w) spacing content (currentOffset h)
                        turns pos hexa ascii),
         moveWindow start buf h, w) /\
      Session content (moveWindow start buf h) w /\
      bufferStart h <= start <= currentOffset h + pos + Z.of_nat turns.
Proof.
  induction turns as [|turns IH]; intros spacing pos hexa ascii h w Hs Hpos.
  - destruct (session_window _ _ _ Hs) as (buf & Hbuf & _).
    exists (bufferStart h), buf.
    rewrite moveWindow_same by assumption.
    conjs; [reflexivity | assumption | lia | lia].
  - destruct (readByteFromFile_forward content h w (currentOffset h + pos)
                Hs Hpos) as (s1 & b1 & Hr1 & Hs1 & Hb1 & _).
    destruct (readByteFromFile_forward content (moveWindow s1 b1 h) w
                (currentOffset h + pos) Hs1 ltac:(simpl; lia))
      as (s2 & b2 & Hr2 & Hs2 & Hb2 & _).
    rewrite moveWindow_twice in Hr2, Hs2. simpl in Hb2.
    destruct (IH spacing (pos + 1) 
                (let hexa' := hexa +:+ renderByteHexa
                                (byteOfFile content (currentOffset h + pos)) in
                 if groupEnds spacing (pos + 1) then hexa' +:+ "  " else hexa')
                (ascii +:+ renderAscii (isWindows w)
                   (byteOfFile content (currentOffset h + pos)))
                (moveWindow s2 b2 h) w Hs2 ltac:(simpl; lia))
      as (s3 & b3 & Hr3 & Hs3 & Hb3).
    rewrite moveWindow_twice in Hr3, Hs3. simpl in Hb3.
    exists s3, b3.
    conjs; [| assumption | lia | lia].
    cbn [generateLine_loop columnsAt].
    unfold bind at 1. unfold this at 1.
    unfold bind at 1. unfold getByteHexa at 1. unfold bind at 1.
    rewrite Hr1. unfold ret at 1.
    unfold bind at 1. unfold getAscii at 1. unfold bind at 1.
    change (currentOffset (moveWindow s1 b1 h)) with (currentOffset h) in Hr2.
    rewrite Hr2. unfold bind at 1. unfold world at 1. unfold ret at 1.
    exact Hr3.
Qed.

Lemma generateLine_spec (h : HexaFile) (w : World) :
  Session content h w ->
  bufferStart h <= currentOffset h ->
  exists start buf,
    generateLine h w
    = (Ret (let '(hexa, ascii) :=
              columnsAt (isWindows w) (spacingOf h) content (currentOffset h)
                        (Z.to_nat LINE_WIDTH) 0 EmptyString EmptyString in
            if showHexa h then hexa +:+ ascii else ascii),
       moveWindow start buf h, w) /\
    Session content (moveWindow start buf h) w /\
    bufferStart h <= start <= currentOffset h + LINE_WIDTH.
Proof.
  intros Hs Hcur.
  destruct (generateLine_loop_spec (Z.to_nat LINE_WIDTH) (spacingOf h) 0
              EmptyString EmptyString h w Hs ltac:(lia)) as (start & buf & Hl & Hs' & Hb).
  exists start, buf. conjs; [| assumption | lia | ].
  - unfold generateLine, bind at 1, this at 1.
    unfold bind at 1. fold (spacingOf h). rewrite Hl.
    destruct (columnsAt _ _ _ _ _ _ _ _) as [hexa ascii].
    reflexivity.
  - change (Z.of_nat (Z.to_nat LINE_WIDTH)) with LINE_WIDTH in Hb. lia.
Qed.

Lemma printLine_spec (h : HexaFile) (w : World) :
  Session content h w ->
  bufferStart h <= currentOffset h ->
  exists start buf,
    printLine h w
    = (Ret (currentLine h + 1 <? maxLine h), afterLine start buf h,
       emit (Line (lineAt (isWindows w) h content (currentOffset h))) w) /\
    Session content (afterLine start buf h) w /\
    bufferStart h <= start <= currentOffset h + LINE_WIDTH.
Proof.
  intros Hs Hcur.
  destruct (generateLine_spec h w Hs Hcur) as (start & buf & Hg & Hs' & Hb).
  exists start, buf. conjs; [| | lia | lia].
  - unfold printLine, lineAt, bind at 1, this at 1.
    destruct (showOffset h) eqn:Hoff.
    + unfold bind at 1, bind at 1, getOffset, bind at 1, this at 1, ret at 1,
        ret at 1.
      unfold bind at 1. rewrite Hg.
      destruct (columnsAt _ _ _ _ _ _ _ _) as [hexa ascii].
      reflexivity.
    + unfold bind at 1, ret at 1.
      unfold bind at 1. rewrite Hg.
      destruct (columnsAt _ _ _ _ _ _ _ _) as [hexa ascii].
      reflexivity.
  - destruct Hs' as [? ? ? ?]. split; assumption.
Qed.

End Renderer.

(** ** Opening a session and running the dump *)

Section Run.

Variable content : list byte.

Lemma linesFrom_S (win : bool) (h : HexaFile) (start : Z) (n : nat) :
  linesFrom win h content start (S n)
  = Line (lineAt win h content start)
    :: linesFrom win h content (start + LINE_WIDTH) n.
Proof.
  unfold linesFrom. rewrite <- cons_seq, <- fmap_S_seq. cbn [map].
  f_equal.
  - do 2 f_equal. lia.
  - rewrite <- list_fmap_compose. apply list_fmap_ext.
    intros i x _. cbn. do 2 f_equal. lia.
Qed.

Lemma linesFrom_ext (win : bool) (h1 h2 : HexaFile) (start : Z) (n : nat) :
  blockSize h1 = blockSize h2 ->
  showOffset h1 = showOffset h2 ->
  showHexa h1 = showHexa h2 ->
  linesFrom win h1 content start n = linesFrom win h2 content start n.
Proof.
  intros Hb Ho Hx. unfold linesFrom, lineAt, spacingOf.
  now rewrite Hb, Ho, Hx.
Qed.

Lemma length_linesFrom (win : bool) (h : HexaFile) (start : Z) (n : nat) :
  length (linesFrom win h content start n) = n.
Proof. unfold linesFrom. now rewrite length_map, length_seq. Qed.

Lemma runImmediates_spec (n : nat) :
  forall (fuel : nat) (h : HexaFile) (w : World),
    Session content h w ->
    bufferStart h <= currentOffset h ->
    Z.of_nat n = Z.max 0 (maxLine h - currentLine h) ->
    (n <= fuel)%nat ->
    exists h',
      runImmediates fuel (currentLine h <? maxLine h) h w
      = Some (Ret tt, h',
              logged (linesFrom (isWindows w) h content (currentOffset h) n) w).
Proof.
  induction n as [|n IH]; intros fuel h w Hs Hcur Hn Hfuel.
  - destruct (Z.ltb_spec (currentLine h) (maxLine h)) as [? | _]; [lia|].
    exists h. rewrite logged_nil. destruct fuel; reflexivity.
  - destruct (Z.ltb_spec (currentLine h) (maxLine h)) as [Hlt | ?]; [|lia].
    destruct fuel as [|fuel]; [lia|].
    destruct (printLine_spec content h w Hs Hcur)
      as (start & buf & Hp & Hs' & Hb).
    cbn [runImmediates]. rewrite Hp.
    destruct (IH fuel (afterLine start buf h)
                (emit (Line (lineAt (isWindows w) h content (currentOffset h))) w))
      as (h' & Hrun).
    + now apply Session_emit.
    + simpl. lia.
    + simpl. lia.
    + lia.
    + exists h'.
      change (currentLine (afterLine start buf h) <? maxLine (afterLine start buf h))
        with (currentLine h + 1 <? maxLine h) in Hrun.
      change (isWindows (emit _ w)) with (isWindows w) in Hrun.
      change (currentOffset (afterLine start buf h))
        with (currentOffset h + LINE_WIDTH) in Hrun.
      rewrite (linesFrom_ext _ (afterLine start buf h) h) in Hrun
        by reflexivity.
      rewrite Hrun, logged_emit, linesFrom_S. reflexivity.
Qed.

(** [Math.ceil(size / LINE_WIDTH)] is the least number of lines that cover
    the file. *)
Lemma ceil_lines (size : Z) :
  0 < size ->
  let n := Qceiling (inject_Z size / inject_Z LINE_WIDTH) in
  LINE_WIDTH * (n - 1) < size <= LINE_WIDTH * n.
Proof.
  intros Hsize. change LINE_WIDTH with 24. unfold Qceiling, Qfloor.
  change (- (inject_Z size / inject_Z 24))%Q with (- (size * 1) # 24)%Q.
  cbv beta iota zeta. rewrite Z.mul_1_r.
  pose proof (Z.div_mod (- size) 24 ltac:(lia)) as Hdm.
  pose proof (Z.mod_pos_bound (- size) 24 ltac:(lia)) as Hm.
  lia.
Qed.

Lemma printAll_spec (fuel : nat) (h : HexaFile) (w : World) :
  Session content h w ->
  bufferStart h <= currentOffset h ->
  0 < byteSize content ->
  let n := Qceiling (inject_Z (byteSize content) / inject_Z LINE_WIDTH) in
  (Z.to_nat n - 1 <= fuel)%nat ->
  exists h',
    printAll fuel h w
    = Some (Ret tt, h',
            logged (linesFrom (isWindows w) h content (currentOffset h)
                              (Z.to_nat n)) w).
Proof.
  intros Hs Hcur Hsize n Hfuel.
  pose proof (ceil_lines _ Hsize) as Hn. cbv zeta in Hn. fold n in Hn.
  assert (Hn1 : 1 <= n) by (change LINE_WIDTH with 24 in Hn; lia).
  unfold printAll, print. mrun.
  rewrite (session_fstat _ _ _ Hs). cbn [Stats.size]. fold n.
  set (h0 := set_currentLine 0 (set_maxLine n h)).
  assert (Hs0 : Session content h0 w).
  { destruct Hs as [? ? ? ?]. split; assumption. }
  destruct (printLine_spec content h0 w Hs0 Hcur)
    as (start & buf & Hp & Hs' & Hb).
  rewrite Hp.
  destruct (runImmediates_spec (Z.to_nat n - 1) fuel (afterLine start buf h0)
              (emit (Line (lineAt (isWindows w) h0 content (currentOffset h0))) w))
    as (h' & Hrun).
  - now apply Session_emit.
  - unfold h0 in *. simpl in Hb |- *. lia.
  - unfold h0. simpl. lia.
  - lia.
  - exists h'.
    change (currentLine (afterLine start buf h0) <? maxLine (afterLine start buf h0))
      with (0 + 1 <? n) in Hrun.
    change (isWindows (emit _ w)) with (isWindows w) in Hrun.
    change (currentOffset (afterLine start buf h0))
      with (currentOffset h + LINE_WIDTH) in Hrun.
    rewrite (linesFrom_ext _ (afterLine start buf h0) h) in Hrun
      by reflexivity.
    change (currentLine h0 + 1 <? maxLine h0) with (0 + 1 <? n).
    rewrite Hrun, logged_emit.
    replace (Z.to_nat n) with (S (Z.to_nat n - 1)) at 2 by lia.
    rewrite linesFrom_S.
    change (currentOffset h0) with (currentOffset h).
    unfold lineAt, spacingOf. reflexivity.
Qed.

End Run.

Section Open.

Variable content : list byte.

Lemma length_Buffer_alloc :
  length (Buffer_alloc BUFFER_LENGTH) = Z.to_nat BUFFER_LENGTH.
Proof. unfold Buffer_alloc. apply length_replicate. Qed.

#[local] Opaque BUFFER_LENGTH Buffer_alloc readInto freshDescriptor.

Lemma Session_opened (p bs : string) (start : Z) (hexa offset : bool)
    (n : Z) (w : World) :
  0 <= start ->
  descriptors w !! n = Some content ->
  Session content (opened content p bs start hexa offset n) w.
Proof.
  intros Hstart Hdesc. split; cbn [fstat fd buffer bufferStart opened].
  - reflexivity.
  - exists n; split; [reflexivity | assumption].
  - eexists; split; [reflexivity|].
    apply readInto_holdsWindow, length_Buffer_alloc.
  - assumption.
Qed.

(** [openFile] on a regular, non-empty file succeeds; it warns when the
    start offset lies at or beyond the end of the file, and starts from 0
    then. *)
Lemma openFile_spec (p bs : string) (startOffset : Z) (hexa offset : bool)
    (w : World) :
  files w !! p = Some (RegularFile content) ->
  0 < byteSize content ->
  let n := freshDescriptor (descriptors w) in
  let w' := set_descriptors (<[n := content]> (descriptors w)) w in
  openFile (newHexaFile p bs startOffset hexa offset) w
  = (Ret tt,
     opened content p bs (startAfterCheck content startOffset) hexa offset n,
     logged (if startOffset >=? byteSize content then [Line warning] else [])
            w').
Proof.
  intros Hfile Hsize n w'.
  unfold openFile, statFile, checkStartOffset, openSync, readChunk,
    statSync. mrun.
  cbn [path newHexaFile]. rewrite Hfile.
  cbn [Stats.isDirectory Stats.size]. unfold Js.truthy.
  destruct (Z.eqb_spec (byteSize content) 0) as [? | _]; [lia|].
  cbn. unfold startAfterCheck.
  destruct (startOffset >=? byteSize content); cbn; rewrite Hfile; cbn;
    fold n; rewrite lookup_insert_eq; cbn.
  - reflexivity.
  - unfold opened, logged, w', set_descriptors; cbn.
    now rewrite app_nil_r.
Qed.

#[local] Transparent freshDescriptor.

Lemma lowestFree_ge (d : gmap Z (list byte)) (fuel : nat) :
  forall n, n <= lowestFree fuel n d.
Proof.
  induction fuel as [|fuel IH]; intros n; simpl; [lia|].
  destruct (d !! n); [|lia].
  specialize (IH (n + 1)). lia.
Qed.

(** With descriptor 0 in use (standard input), a new descriptor is not 0. *)
Lemma freshDescriptor_nonzero (d : gmap Z (list byte)) :
  is_Some (d !! 0) -> freshDescriptor d <> 0.
Proof.
  intros [x Hx]. unfold freshDescriptor.
  destruct (size d) as [|k] eqn:Hk.
  - apply map_size_empty_iff in Hk. subst d.
    now rewrite lookup_empty in Hx.
  - simpl. rewrite Hx. pose proof (lowestFree_ge d k (0 + 1)). lia.
Qed.

End Open.

(** ** Shape of a rendered line *)

Section Columns.

Variable content : list byte.

Lemma isCell_byte (b : byte) :
  isCell (renderByteHexa (Js.Num (Z.of_N (Byte.to_N b)))) = true.
Proof. destruct b; vm_compute; reflexivity. Qed.

Lemma isCell_byteOfFile (offset : Z) :
  isCell (renderByteHexa (byteOfFile content offset)) = true.
Proof.
  unfold byteOfFile, bufferAt.
  destruct (offset <? byteSize content); [|reflexivity].
  destruct (0 <=? offset); [|reflexivity].
  destruct (content !! Z.to_nat offset) as [b|]; [|reflexivity].
  apply isCell_byte.
Qed.

Lemma length_cell (s : string) : isCell s = true -> String.length s = 2%nat.
Proof.
  destruct s as [|c1 [|c2 [|c3 s]]]; simpl; intros H;
    try discriminate; reflexivity.
Qed.

Lemma length_renderAscii (win : bool) (v : Js.value) :
  String.length (renderAscii win v) = 1%nat.
Proof.
  unfold renderAscii.
  destruct (_ && Js.strict_ne v 173); [|reflexivity].
  destruct v; reflexivity.
Qed.

(** The loop of the line renderer appends the two columns to what it is
    given. *)
Lemma columnsAt_columns (win : bool) (spacing : option Q) (start : Z)
    (turns : nat) :
  forall (pos : Z) (hexa ascii : string),
    columnsAt win spacing content start turns pos hexa ascii
    = (hexa +:+ hexColumn spacing content start turns pos,
       ascii +:+ asciiColumn win content start turns pos).
Proof.
  induction turns as [|turns IH]; intros pos hexa ascii.
  - cbn [columnsAt hexColumn asciiColumn]. now rewrite !append_empty_r.
  - cbn [columnsAt hexColumn asciiColumn]. rewrite IH.
    destruct (groupEnds spacing (pos + 1));
      now rewrite ?append_assoc, ?append_nil.
Qed.

Lemma length_asciiColumn (win : bool) (start : Z) (turns : nat) :
  forall pos, String.length (asciiColumn win content start turns pos) = turns.
Proof.
  induction turns as [|turns IH]; intros pos; cbn [asciiColumn];
    [reflexivity|].
  now rewrite length_append, length_renderAscii, IH.
Qed.

Lemma length_hexColumn (spacing : option Q) (start : Z) (turns : nat) :
  forall pos (cells : nat),
    String.length (hexColumn spacing content start turns pos)
    = (2 * turns + 2 * length (groupEndsAfter spacing turns pos cells))%nat.
Proof.
  induction turns as [|turns IH]; intros pos cells;
    cbn [hexColumn groupEndsAfter]; [reflexivity|].
  rewrite !length_append, (IH (pos + 1) (S cells)).
  rewrite (length_cell _ (isCell_byteOfFile _)).
  destruct (groupEnds spacing (pos + 1)); simpl; lia.
Qed.

Lemma separatorsAfter_cell (cells : nat) (cell rest : string) :
  isCell cell = true ->
  separatorsAfter cells (cell +:+ rest) = separatorsAfter (S cells) rest.
Proof.
  destruct cell as [|c1 [|c2 [|c3 s]]]; simpl; intros H; try discriminate.
  destruct (Ascii.eqb c1 " "), (Ascii.eqb c2 " "); try discriminate.
  reflexivity.
Qed.

Lemma separatorsAfter_hexColumn (spacing : option Q) (start : Z)
    (turns : nat) :
  forall pos (cells : nat),
    separatorsAfter cells (hexColumn spacing content start turns pos)
    = Some (groupEndsAfter spacing turns pos cells).
Proof.
  induction turns as [|turns IH]; intros pos cells;
    cbn [hexColumn groupEndsAfter]; [reflexivity|].
  rewrite separatorsAfter_cell by apply isCell_byteOfFile.
  destruct (groupEnds spacing (pos + 1)).
  - change ("  " +:+ hexColumn spacing content start turns (pos + 1))
      with (String " " (String " "
              (hexColumn spacing content start turns (pos + 1)))).
    cbn [separatorsAfter]. change (Ascii.eqb " " " ") with true.
    cbn [andb]. now rewrite IH.
  - rewrite append_nil. apply IH.
Qed.

End Columns.

(** * The claims *)

Lemma sample_Session (bs : string) (start : Z) :
  0 <= start -> Session sampleBytes (sampleOpened bs start) sampleOpenWorld.
Proof. intros Hstart. apply Session_opened; [assumption | reflexivity]. Qed.

Lemma sample_openFile (bs : string) (start : Z) :
  start < 10 ->
  openFile (newHexaFile "abc.bin" bs start true true) sampleWorld
  = (Ret tt, sampleOpened bs start, sampleOpenWorld).
Proof.
  intros Hstart.
  rewrite (openFile_spec sampleBytes) by reflexivity.
  unfold startAfterCheck. change (byteSize sampleBytes) with 10.
  destruct (Z.geb_spec start 10) as [? | _]; [lia|].
  rewrite logged_nil. reflexivity.
Qed.

(** ** C1: the window of the byte source *)

(** C1, as the code has it.  For a read at [offset] with
    [bufferStart <= offset < fileSize]: when the offset lies at or beyond
    [bufferStart + BUFFER_LENGTH] the window is refilled and starts at
    [offset]; otherwise it stays; the value returned is the buffer at index
    [offset - bufferStart], it is the byte of the file at [offset], and the
    offset served lies in the window and in the file. *)
Theorem readByteFromFile_window (content : list byte) (h : HexaFile)
    (w : World) (offset : Z) :
  Session content h w ->
  bufferStart h <= offset < byteSize content ->
  exists h' buf,
    readByteFromFile offset h w
    = (Ret (bufferAt buf (offset - bufferStart h')), h', w) /\
    buffer h' = Some buf /\
    (BUFFER_LENGTH + bufferStart h <= offset -> bufferStart h' = offset) /\
    (offset < BUFFER_LENGTH + bufferStart h -> bufferStart h' = bufferStart h) /\
    bufferAt buf (offset - bufferStart h') = bufferAt content offset /\
    bufferStart h' <= offset < bufferStart h' + BUFFER_LENGTH /\
    offset < byteSize content.
Proof.
  intros Hs Hoff.
  destruct (readByteFromFile_served content h w offset Hs Hoff)
    as (start & buf & Heq & _ & Hstart & Hidx & Hbyte).
  exists (moveWindow start buf h), buf.
  change (bufferStart (moveWindow start buf h)) with start.
  conjs; try assumption; try reflexivity; try lia.
  - intros Hfar. subst start.
    destruct (Z.geb_spec offset (BUFFER_LENGTH + bufferStart h)); lia.
  - intros Hnear. subst start.
    destruct (Z.geb_spec offset (BUFFER_LENGTH + bufferStart h)); lia.
Qed.

Lemma readByteFromFile_window_witness :
  Session sampleBytes (sampleOpened "8" 5) sampleOpenWorld /\
  exists h' buf,
    readByteFromFile 7 (sampleOpened "8" 5) sampleOpenWorld
    = (Ret (bufferAt buf (7 - bufferStart h')), h', sampleOpenWorld) /\
    buffer h' = Some buf /\
    (BUFFER_LENGTH + bufferStart (sampleOpened "8" 5) <= 7 ->
     bufferStart h' = 7) /\
    (7 < BUFFER_LENGTH + bufferStart (sampleOpened "8" 5) ->
     bufferStart h' = bufferStart (sampleOpened "8" 5)) /\
    bufferAt buf (7 - bufferStart h') = bufferAt sampleBytes 7 /\
    bufferStart h' <= 7 < bufferStart h' + BUFFER_LENGTH /\
    7 < byteSize sampleBytes.
Proof.
  split.
  - apply sample_Session. lia.
  - apply (readByteFromFile_window sampleBytes (sampleOpened "8" 5)
             sampleOpenWorld 7).
    + apply sample_Session. lia.
    + vm_compute. split; [discriminate | reflexivity].
Defined.

(** C1 as stated fails below the window: in the ten-byte sample file opened
    at start offset 5, offset 2 is inside the file and outside the window
    [[5, 5 + BUFFER_LENGTH)], yet the read refills nothing, leaves the window
    start at 5, looks the buffer up at index -3 and returns [undefined]. *)
Lemma readByteFromFile_below_window :
  openFile (newHexaFile "abc.bin" "8" 5 true true) sampleWorld
  = (Ret tt, sampleOpened "8" 5, sampleOpenWorld) /\
  2 < byteSize sampleBytes /\
  ~ (bufferStart (sampleOpened "8" 5) <= 2
     < bufferStart (sampleOpened "8" 5) + BUFFER_LENGTH) /\
  let '(v, h', _) := readByteFromFile 2 (sampleOpened "8" 5) sampleOpenWorld in
  v = Ret Js.Undefined /\
  bufferStart h' = 5 /\
  bufferStart h' <> 2 /\
  ~ (bufferStart h' <= 2 < bufferStart h' + BUFFER_LENGTH).
Proof.
  split; [apply sample_openFile; lia|].
  split; [reflexivity|].
  split; [vm_compute; intros [H _]; apply H; reflexivity|].
  vm_compute.
  split; [reflexivity|]. split; [reflexivity|]. split; [discriminate|].
  intros [H _]; apply H; reflexivity.
Qed.

(** ** C2: the character column *)

(** C2.  The end-of-file value and byte 0xAD render as ".", on every
    platform; on Windows a byte renders as its character exactly when
    [32 <= b < 127]; elsewhere exactly when [32 <= b < 127] or [b > 160],
    0xAD excepted; every other byte renders as ".". *)
Theorem renderAscii_classification (win : bool) (b : Z) :
  0 <= b <= 255 ->
  renderAscii win (Js.Num (-1)) = "." /\
  renderAscii win (Js.Num 0xAD) = "." /\
  (32 <= b < 127 -> renderAscii true (Js.Num b) = Js.fromCharCode b) /\
  (~ 32 <= b < 127 -> renderAscii true (Js.Num b) = ".") /\
  ((32 <= b < 127 \/ 160 < b) /\ b <> 0xAD ->
   renderAscii false (Js.Num b) = Js.fromCharCode b) /\
  (~ ((32 <= b < 127 \/ 160 < b) /\ b <> 0xAD) ->
   renderAscii false (Js.Num b) = ".").
Proof.
  intros Hb.
  assert (Hwin : renderAscii true (Js.Num b)
                 = if (32 <=? b) && (b <? 127) then Js.fromCharCode b else ".").
  { unfold renderAscii, Js.gt, Js.ge, Js.lt, Js.strict_ne.
    cbn [negb andb orb]. rewrite Z.geb_leb.
    destruct (Z.leb_spec 32 b), (Z.ltb_spec b 127), (Z.eqb_spec b 173);
      cbn; try reflexivity; lia. }
  assert (Hother : renderAscii false (Js.Num b)
                   = if ((160 <? b) || (32 <=? b) && (b <? 127))
                        && negb (b =? 0xAD)
                     then Js.fromCharCode b else ".").
  { unfold renderAscii, Js.gt, Js.ge, Js.lt, Js.strict_ne.
    cbn [negb andb orb]. now rewrite Z.geb_leb, Z.gtb_ltb. }
  conjs.
  - destruct win; reflexivity.
  - destruct win; reflexivity.
  - intros H. rewrite Hwin.
    destruct (Z.leb_spec 32 b), (Z.ltb_spec b 127); cbn; try reflexivity; lia.
  - intros H. rewrite Hwin.
    destruct (Z.leb_spec 32 b), (Z.ltb_spec b 127); cbn; try reflexivity; lia.
  - intros H. rewrite Hother.
    destruct (Z.ltb_spec 160 b), (Z.leb_spec 32 b), (Z.ltb_spec b 127),
      (Z.eqb_spec b 173); cbn; try reflexivity; lia.
  - intros H. rewrite Hother.
    destruct (Z.ltb_spec 160 b), (Z.leb_spec 32 b), (Z.ltb_spec b 127),
      (Z.eqb_spec b 173); cbn; try reflexivity; lia.
Qed.

Lemma renderAscii_classification_witness :
  0 <= 200 <= 255 /\
  renderAscii false (Js.Num (-1)) = "." /\
  renderAscii false (Js.Num 0xAD) = "." /\
  (32 <= 200 < 127 -> renderAscii true (Js.Num 200) = Js.fromCharCode 200) /\
  (~ 32 <= 200 < 127 -> renderAscii true (Js.Num 200) = ".") /\
  ((32 <= 200 < 127 \/ 160 < 200) /\ 200 <> 0xAD ->
   renderAscii false (Js.Num 200) = Js.fromCharCode 200) /\
  (~ ((32 <= 200 < 127 \/ 160 < 200) /\ 200 <> 0xAD) ->
   renderAscii false (Js.Num 200) = ".").
Proof.
  split; [lia|].
  apply (renderAscii_classification false 200). lia.
Defined.

(** [getAscii] is [renderAscii] of the value the byte source returns. *)
Lemma getAscii_renderAscii (offset : Z) (h h' : HexaFile) (w w' : World)
    (code : Js.value) :
  readByteFromFile offset h w = (Ret code, h', w') ->
  getAscii offset h w = (Ret (renderAscii (isWindows w') code), h', w').
Proof. intros Hr. unfold getAscii. mrun. now rewrite Hr. Qed.

Lemma getByteHexa_renderByteHexa (offset : Z) (h h' : HexaFile) (w w' : World)
    (byte : Js.value) :
  readByteFromFile offset h w = (Ret byte, h', w') ->
  getByteHexa offset h w = (Ret (renderByteHexa byte), h', w').
Proof. intros Hr. unfold getByteHexa. mrun. now rewrite Hr. Qed.

(** ** C4: past the end of the file *)

(** C4.  A read at or beyond the end of the file returns the end-of-file
    value -1 without throwing and without touching the object or the world;
    its hexadecimal cell is ".." and its character cell is "."; and wherever
    the line of the cursor lies, before or across the end of the file, the
    loop of [generateLine] returns a character column of 24 characters and a
    hexadecimal column of 24 cells of two characters plus its separators, so
    that the last row is as wide as the others. *)
Theorem readByteFromFile_beyond_end (content : list byte) (h : HexaFile)
    (w : World) (offset : Z) :
  Session content h w ->
  byteSize content <= offset ->
  readByteFromFile offset h w = (Ret (Js.Num (-1)), h, w) /\
  getByteHexa offset h w = (Ret "..", h, w) /\
  getAscii offset h w = (Ret ".", h, w) /\
  (bufferStart h <= currentOffset h ->
   forall spacing : option Q,
   exists hexa ascii h',
     generateLine_loop (Z.to_nat LINE_WIDTH) spacing 0
                       EmptyString EmptyString h w
     = (Ret (hexa, ascii), h', w) /\
     String.length ascii = 24%nat /\
     String.length hexa
     = (2 * 24 + 2 * length (groupEndsAfter spacing 24 0 0))%nat).
Proof.
  intros Hs Hoff.
  pose proof (readByteFromFile_eof content h w offset
                (session_fstat _ _ _ Hs) Hoff) as Hr.
  conjs.
  - exact Hr.
  - now rewrite (getByteHexa_renderByteHexa _ _ _ _ _ _ Hr).
  - rewrite (getAscii_renderAscii _ _ _ _ _ _ Hr).
    now destruct (isWindows w).
  - intros Hcur spacing.
    destruct (generateLine_loop_spec content (Z.to_nat LINE_WIDTH) spacing
                0 EmptyString EmptyString h w Hs ltac:(lia))
      as (start & buf & Hl & _ & _).
    rewrite columnsAt_columns, !append_nil in Hl.
    eexists _, _, _. split; [exact Hl|]. split.
    + apply length_asciiColumn.
    + apply (length_hexColumn content spacing _ 24 0 0).
Qed.

Lemma readByteFromFile_beyond_end_witness :
  Session sampleBytes (sampleOpened "8" 0) sampleOpenWorld /\
  byteSize sampleBytes <= 17 /\
  readByteFromFile 17 (sampleOpened "8" 0) sampleOpenWorld
  = (Ret (Js.Num (-1)), sampleOpened "8" 0, sampleOpenWorld) /\
  getByteHexa 17 (sampleOpened "8" 0) sampleOpenWorld
  = (Ret "..", sampleOpened "8" 0, sampleOpenWorld) /\
  getAscii 17 (sampleOpened "8" 0) sampleOpenWorld
  = (Ret ".", sampleOpened "8" 0, sampleOpenWorld).
Proof.
  assert (Hs : Session sampleBytes (sampleOpened "8" 0) sampleOpenWorld)
    by (apply sample_Session; lia).
  assert (Hoff : byteSize sampleBytes <= 17) by (vm_compute; discriminate).
  destruct (readByteFromFile_beyond_end sampleBytes (sampleOpened "8" 0)
              sampleOpenWorld 17 Hs Hoff) as (H1 & H2 & H3 & _).
  repeat (split; [assumption|]). assumption.
Defined.

(** ** C5: separators of the hexadecimal column *)

(** C5, as the code has it.  With block size 32 the hexadecimal column of
    every line holds six two-space separators, after cells 4, 8, 12, 16, 20
    and 24: the test that adds a separator runs after the last byte too, and
    its separator keeps the hexadecimal column apart from the characters. *)
Theorem generateLine_separators (content : list byte) (h : HexaFile)
    (w : World) :
  Session content h w ->
  bufferStart h <= currentOffset h ->
  blockSize h = Some 32 ->
  exists hexa ascii h',
    generateLine_loop (Z.to_nat LINE_WIDTH) (spacingOf h) 0
                      EmptyString EmptyString h w
    = (Ret (hexa, ascii), h', w) /\
    separatorsAfter 0 hexa = Some [4; 8; 12; 16; 20; 24]%nat.
Proof.
  intros Hs Hcur Hbs.
  destruct (generateLine_loop_spec content (Z.to_nat LINE_WIDTH) (spacingOf h)
              0 EmptyString EmptyString h w Hs ltac:(lia))
    as (start & buf & Hl & _ & _).
  rewrite columnsAt_columns, !append_nil in Hl.
  eexists _, _, _. split; [exact Hl|].
  rewrite separatorsAfter_hexColumn.
  unfold spacingOf. rewrite Hbs. vm_compute. reflexivity.
Qed.

Lemma generateLine_separators_witness :
  Session sampleBytes (sampleOpened "32" 0) sampleOpenWorld /\
  exists hexa ascii h',
    generateLine_loop (Z.to_nat LINE_WIDTH) (spacingOf (sampleOpened "32" 0))
                      0 EmptyString EmptyString (sampleOpened "32" 0)
                      sampleOpenWorld
    = (Ret (hexa, ascii), h', sampleOpenWorld) /\
    separatorsAfter 0 hexa = Some [4; 8; 12; 16; 20; 24]%nat.
Proof.
  split.
  - apply sample_Session. lia.
  - apply (generateLine_separators sampleBytes (sampleOpened "32" 0)
             sampleOpenWorld).
    + apply sample_Session. lia.
    + vm_compute. discriminate.
    + reflexivity.
Defined.

(** C5 as stated fails on the first line of the sample file dumped with
    block size 32: the hexadecimal column ends in a separator, the sixth. *)
Lemma generateLine_trailing_separator :
  blockSize (sampleOpened "32" 0) = Some 32 /\
  let '(r, _, _) :=
    generateLine_loop (Z.to_nat LINE_WIDTH) (spacingOf (sampleOpened "32" 0))
                      0 EmptyString EmptyString (sampleOpened "32" 0)
                      sampleOpenWorld in
  exists hexa ascii,
    r = Ret (hexa, ascii) /\
    hexa = "41424344  45464748  494a....  ........  ........  ........  " /\
    separatorsAfter 0 hexa = Some [4; 8; 12; 16; 20; 24]%nat /\
    separatorsAfter 0 hexa <> Some [4; 8; 12; 16; 20]%nat.
Proof.
  split; [reflexivity|].
  vm_compute. eexists _, _. split; [reflexivity|].
  split; [reflexivity|]. split; [reflexivity | discriminate].
Qed.

(** ** C6: the offset column *)

Lemma print_spec (content : list byte) (h : HexaFile) (w : World) :
  Session content h w ->
  bufferStart h <= currentOffset h ->
  exists again h',
    print h w
    = (Ret again, h',
       emit (Line (lineAt (isWindows w) h content (currentOffset h))) w).
Proof.
  intros Hs Hcur. unfold print. mrun.
  rewrite (session_fstat _ _ _ Hs). cbn [Stats.size].
  set (n := Qceiling _).
  assert (Hs0 : Session content (set_currentLine 0 (set_maxLine n h)) w).
  { destruct Hs as [? ? ? ?]. split; assumption. }
  destruct (printLine_spec content _ w Hs0 Hcur) as (start & buf & Hp & _).
  rewrite Hp. eexists _, _. unfold lineAt, spacingOf. reflexivity.
Qed.

Lemma lineAt_offset_column (win : bool) (h : HexaFile) (content : list byte)
    (start : Z) :
  showOffset h = true ->
  exists rest,
    lineAt win h content start = convertOffsetTotHexa start +:+ "   " +:+ rest.
Proof.
  intros Hoff. unfold lineAt. rewrite Hoff.
  destruct (columnsAt _ _ _ _ _ _ _ _) as [hexa ascii].
  eexists. rewrite append_nil, append_assoc. reflexivity.
Qed.

(** C6, as the code has it.  For an offset [0 <= o < 2^64] the offset column
    is [o] in lowercase hexadecimal, eight characters long when
    [o <= 0xFFFFFFFF] and sixteen otherwise; and the first line of a dump
    from a start offset inside the file begins with that start offset so
    formatted, followed by three spaces. *)
Theorem convertOffsetTotHexa_padded (o : Z) :
  0 <= o < 2 ^ 64 ->
  String.length (convertOffsetTotHexa o)
  = (if (o <=? MAX_32BIT)%Z then 8%nat else 16%nat) /\
  hexValue (convertOffsetTotHexa o) = Some o /\
  forall (content : list byte) (p bs : string) (hexa : bool) (w : World),
    files w !! p = Some (RegularFile content) ->
    o < byteSize content ->
    exists h w1 again h' rest,
      openFile (newHexaFile p bs o hexa true) w = (Ret tt, h, w1) /\
      print h w1
      = (Ret again, h',
         emit (Line (convertOffsetTotHexa o +:+ "   " +:+ rest)) w1).
Proof.
  intros Ho.
  destruct (toString16_spec o ltac:(lia)) as (ds & Hds & Hlen & Hmin & Hval).
  assert (Hfmt : String.length (convertOffsetTotHexa o)
                 = (if (o <=? MAX_32BIT)%Z then 8%nat else 16%nat) /\
                 hexValue (convertOffsetTotHexa o) = Some o).
  { unfold convertOffsetTotHexa. rewrite Hds.
    destruct (Z.leb_spec o MAX_32BIT) as [Hsmall | Hbig].
    - change "00000000" with (zeros 8).
      apply substrFromEnd_pad; [|assumption].
      pose proof (Hmin 8 ltac:(lia)
                    ltac:(change (16 ^ 8) with (MAX_32BIT + 1); lia)).
      lia.
    - change "0000000000000000" with (zeros 16).
      apply substrFromEnd_pad; [|assumption].
      pose proof (Hmin 16 ltac:(lia)
                    ltac:(change (16 ^ 16) with (2 ^ 64); lia)).
      lia. }
  destruct Hfmt as [Hl Hv]. conjs; [exact Hl | exact Hv |].
  intros content p bs hexa w Hfile Hsize.
  rewrite (openFile_spec content) by (assumption || lia).
  unfold startAfterCheck.
  destruct (Z.geb_spec o (byteSize content)) as [? | _]; [lia|].
  rewrite logged_nil.
  set (w1 := set_descriptors _ w).
  set (h := opened content p bs o hexa true _).
  assert (Hs : Session content h w1).
  { apply Session_opened; [lia|]. unfold w1. cbn [descriptors set_descriptors].
    apply lookup_insert_eq. }
  destruct (print_spec content h w1 Hs ltac:(reflexivity))
    as (again & h' & Hp).
  destruct (lineAt_offset_column (isWindows w1) h content o eq_refl)
    as (rest & Hrest).
  change (currentOffset h) with o in Hp. rewrite Hrest in Hp.
  exists h, w1, again, h', rest. split; [reflexivity | exact Hp].
Qed.

Lemma convertOffsetTotHexa_padded_witness :
  0 <= 4294967296 < 2 ^ 64 /\
  String.length (convertOffsetTotHexa 4294967296) = 16%nat /\
  hexValue (convertOffsetTotHexa 4294967296) = Some 4294967296.
Proof.
  split; [lia|].
  destruct (convertOffsetTotHexa_padded 4294967296 ltac:(lia))
    as (Hl & Hv & _).
  split; [exact Hl | exact Hv].
Defined.

(** C6 as stated fails from 2^64 on: the numeral has seventeen digits and
    [substr(-16)] keeps the last sixteen, all zeros. *)
Lemma convertOffsetTotHexa_truncates :
  0 <= 2 ^ 64 /\
  Js.toString16 (2 ^ 64) = "10000000000000000" /\
  convertOffsetTotHexa (2 ^ 64) = "0000000000000000" /\
  hexValue (convertOffsetTotHexa (2 ^ 64)) <> Some (2 ^ 64).
Proof.
  split; [discriminate|]. vm_compute.
  split; [reflexivity|]. split; [reflexivity | discriminate].
Qed.

(** ** C3: the number of lines *)

Lemma lookup_linesFrom (win : bool) (h : HexaFile) (content : list byte)
    (start : Z) (n i : nat) :
  (i < n)%nat ->
  linesFrom win h content start n !! i
  = Some (Line (lineAt win h content (start + LINE_WIDTH * Z.of_nat i))).
Proof.
  intros Hi. unfold linesFrom.
  change (map ?f ?l) with (f <$> l).
  rewrite list_lookup_fmap, lookup_seq_lt by assumption. reflexivity.
Qed.

Lemma lineCount_spec (content : list byte) (n : Z) :
  0 < byteSize content ->
  24 * (n - 1) < byteSize content <= 24 * n ->
  lineCount content = Z.to_nat n.
Proof.
  intros Hsize Hn. unfold lineCount.
  pose proof (ceil_lines _ Hsize) as Hc. cbv zeta in Hc.
  change LINE_WIDTH with 24 in *. f_equal. lia.
Qed.

(** Opening then printing, on a regular non-empty file. *)
Lemma open_print_spec (content : list byte) (p bs : string) (startOffset : Z)
    (hexa offset : bool) (w : World) (fuel : nat) :
  files w !! p = Some (RegularFile content) ->
  0 < byteSize content ->
  0 <= startOffset ->
  (lineCount content <= fuel)%nat ->
  let start := startAfterCheck content startOffset in
  let h := opened content p bs start hexa offset
                  (freshDescriptor (descriptors w)) in
  let w1 := logged (if startOffset >=? byteSize content
                    then [Line warning] else [])
              (set_descriptors
                 (<[freshDescriptor (descriptors w) := content]> (descriptors w))
                 w) in
  openFile (newHexaFile p bs startOffset hexa offset) w = (Ret tt, h, w1) /\
  exists h',
    printAll fuel h w1
    = Some (Ret tt, h',
            logged (linesFrom (isWindows w) h content start (lineCount content))
                   w1).
Proof.
  intros Hfile Hsize Hstart Hfuel start h w1.
  split; [now apply openFile_spec|].
  assert (Hs : Session content h w1).
  { apply Session_logged, Session_opened.
    - unfold start, startAfterCheck. destruct (startOffset >=? _); lia.
    - cbn [descriptors set_descriptors]. apply lookup_insert_eq. }
  destruct (printAll_spec content fuel h w1 Hs ltac:(reflexivity) Hsize)
    as (h' & Hp).
  - fold (lineCount content). lia.
  - exists h'. exact Hp.
Qed.

(** C3.  For a file of size [S > 0], with [n] the least integer such that
    [S <= 24 * n], opening the file and running [print] and the callbacks it
    schedules (any fuel of [n] or more is enough) ends normally and writes
    exactly [n] lines; line [i], counted from 0, is the line of the file that
    starts at offset [start + 24 * i], where [start] is the start offset
    after [checkStartOffset]. *)
Theorem print_emits_every_line (content : list byte) (p bs : string)
    (startOffset : Z) (hexa offset : bool) (w : World) (n : Z) (fuel : nat) :
  files w !! p = Some (RegularFile content) ->
  0 < byteSize content ->
  0 <= startOffset ->
  24 * (n - 1) < byteSize content <= 24 * n ->
  (Z.to_nat n <= fuel)%nat ->
  exists h w1 h' w2 lines,
    openFile (newHexaFile p bs startOffset hexa offset) w = (Ret tt, h, w1) /\
    currentOffset h = startAfterCheck content startOffset /\
    printAll fuel h w1 = Some (Ret tt, h', w2) /\
    console w2 = console w1 ++ lines /\
    length lines = Z.to_nat n /\
    forall i : nat,
      (i < Z.to_nat n)%nat ->
      lines !! i
      = Some (Line (lineAt (isWindows w) h content
                           (currentOffset h + 24 * Z.of_nat i))).
Proof.
  intros Hfile Hsize Hstart Hn Hfuel.
  pose proof (lineCount_spec content n Hsize Hn) as Hcount.
  destruct (open_print_spec content p bs startOffset hexa offset w fuel
              Hfile Hsize Hstart ltac:(lia)) as (Hopen & h' & Hprint).
  eexists _, _, h', _, _.
  split; [exact Hopen|]. split; [reflexivity|].
  split; [exact Hprint|]. split; [reflexivity|].
  rewrite Hcount. split.
  - apply length_linesFrom.
  - intros i Hi. now apply lookup_linesFrom.
Qed.

Lemma print_emits_every_line_witness :
  exists h w1 h' w2 lines,
    openFile (newHexaFile "abc.bin" "8" 0 true true) sampleWorld
    = (Ret tt, h, w1) /\
    currentOffset h = startAfterCheck sampleBytes 0 /\
    printAll 1 h w1 = Some (Ret tt, h', w2) /\
    console w2 = console w1 ++ lines /\
    length lines = Z.to_nat 1 /\
    forall i : nat,
      (i < Z.to_nat 1)%nat ->
      lines !! i
      = Some (Line (lineAt (isWindows sampleWorld) h sampleBytes
                           (currentOffset h + 24 * Z.of_nat i))).
Proof.
  apply (print_emits_every_line sampleBytes "abc.bin" "8" 0 true true
           sampleWorld 1 1).
  - reflexivity.
  - reflexivity.
  - lia.
  - vm_compute. split; [reflexivity | discriminate].
  - vm_compute. lia.
Defined.

(** ** C7: a start offset beyond the end of the file *)

Lemma main_dumped (inv : Invocation) (p : string) (rest : list string)
    (so : Z) (fuel : nat) (w w1 w2 : World) (h h' : HexaFile) :
  args inv = p :: rest ->
  Js.matchesAny ["8"; "16"; "32"; "64"] (optBlockSize inv) = true ->
  Js.parseInt (optStartOffset inv) = Some so ->
  0 <= so ->
  openFile (newHexaFile p (optBlockSize inv) so (optHexa inv) (optOffset inv)) w
  = (Ret tt, h, w1) ->
  printAll fuel h w1 = Some (Ret tt, h', w2) ->
  main inv fuel w = Some (Dumped, Some h', w2).
Proof.
  intros Hargs Hbs Hso Hpos Hopen Hprint.
  unfold main, validateParams. rewrite Hargs, Hbs, Hso. cbn [negb].
  destruct (Z.ltb_spec so 0) as [? | _]; [lia|].
  unfold bind. rewrite Hopen.
  unfold printAll in Hprint.
  destruct (print h w1) as [[[again | e] h2] w3].
  - rewrite Hprint. reflexivity.
  - discriminate.
Qed.

(** C7.  When the requested start offset lies at or beyond the end of a
    non-empty file, [openFile] does not throw: it logs the warning, once, and
    resets [currentOffset] and [bufferStart] to 0; the program then prints the
    warning followed by exactly the lines it prints when asked to start at
    offset 0. *)
Theorem main_startOffset_beyond_end (inv : Invocation) (p : string)
    (rest : list string) (content : list byte) (so : Z) (fuel : nat)
    (w : World) :
  args inv = p :: rest ->
  files w !! p = Some (RegularFile content) ->
  0 < byteSize content ->
  Js.matchesAny ["8"; "16"; "32"; "64"] (optBlockSize inv) = true ->
  Js.parseInt (optStartOffset inv) = Some so ->
  byteSize content <= so ->
  (lineCount content <= fuel)%nat ->
  exists h0 w0 lines h1 w1 h2 w2,
    openFile (newHexaFile p (optBlockSize inv) so (optHexa inv) (optOffset inv)) w
    = (Ret tt, h0, w0) /\
    console w0 = console w ++ [Line warning] /\
    currentOffset h0 = 0 /\
    bufferStart h0 = 0 /\
    lines = linesFrom (isWindows w) h0 content 0 (lineCount content) /\
    main inv fuel w = Some (Dumped, Some h1, w1) /\
    console w1 = console w ++ [Line warning] ++ lines /\
    main (withStartOffset "0" inv) fuel w = Some (Dumped, Some h2, w2) /\
    console w2 = console w ++ lines.
Proof.
  intros Hargs Hfile Hsize Hbs Hso Hbeyond Hfuel.
  destruct (open_print_spec content p (optBlockSize inv) so (optHexa inv)
              (optOffset inv) w fuel Hfile Hsize ltac:(lia) Hfuel)
    as (Hopen1 & h1 & Hprint1).
  destruct (open_print_spec content p (optBlockSize inv) 0 (optHexa inv)
              (optOffset inv) w fuel Hfile Hsize ltac:(lia) Hfuel)
    as (Hopen2 & h2 & Hprint2).
  unfold startAfterCheck in *.
  destruct (Z.geb_spec so (byteSize content)) as [_ | ?]; [|lia].
  destruct (Z.geb_spec 0 (byteSize content)) as [? | _]; [lia|].
  eexists _, _, _, h1, _, h2, _.
  split; [exact Hopen1|]. split; [reflexivity|].
  split; [reflexivity|]. split; [reflexivity|]. split; [reflexivity|].
  split; [exact (main_dumped inv p rest so fuel _ _ _ _ _ Hargs Hbs Hso
                   ltac:(lia) Hopen1 Hprint1)|].
  split; [cbn [console logged set_descriptors]; now rewrite <- app_assoc|].
  split.
  - apply (main_dumped (withStartOffset "0" inv) p rest 0 fuel _ _ _ _ _
             Hargs Hbs eq_refl ltac:(lia) Hopen2 Hprint2).
  - cbn [console logged set_descriptors]. now rewrite app_nil_r.
Qed.

Lemma main_startOffset_beyond_end_witness :
  exists h0 w0 lines h1 w1 h2 w2,
    openFile (newHexaFile "abc.bin" "32" 100 true true) sampleWorld
    = (Ret tt, h0, w0) /\
    console w0 = console sampleWorld ++ [Line warning] /\
    currentOffset h0 = 0 /\
    bufferStart h0 = 0 /\
    lines = linesFrom (isWindows sampleWorld) h0 sampleBytes 0
                      (lineCount sampleBytes) /\
    main (sampleInvocation "32" "100") 1 sampleWorld
    = Some (Dumped, Some h1, w1) /\
    console w1 = console sampleWorld ++ [Line warning] ++ lines /\
    main (withStartOffset "0" (sampleInvocation "32" "100")) 1 sampleWorld
    = Some (Dumped, Some h2, w2) /\
    console w2 = console sampleWorld ++ lines.
Proof.
  apply (main_startOffset_beyond_end (sampleInvocation "32" "100") "abc.bin"
           [] sampleBytes 100 1 sampleWorld).
  - reflexivity.
  - reflexivity.
  - reflexivity.
  - reflexivity.
  - reflexivity.
  - vm_compute. discriminate.
  - vm_compute. lia.
Defined.

(** ** C8: closing the file *)

Lemma cleanup_unopened (h : HexaFile) (w : World) :
  fd h = None -> cleanup h w = (Ret tt, h, w).
Proof. intros Hfd. unfold cleanup. mrun. now rewrite Hfd. Qed.

Lemma cleanup_open (h : HexaFile) (w : World) (n : Z) (content : list byte) :
  fd h = Some n ->
  n <> 0 ->
  descriptors w !! n = Some content ->
  cleanup h w = (Ret tt, h, set_descriptors (delete n (descriptors w)) w).
Proof.
  intros Hfd Hn Hdesc. unfold cleanup, closeSync, Js.truthy. mrun.
  rewrite Hfd. destruct (Z.eqb_spec n 0) as [? | _]; [contradiction|].
  cbn [negb]. now rewrite Hdesc.
Qed.

Lemma cleanup_closed (h : HexaFile) (w : World) (n : Z) :
  fd h = Some n ->
  n <> 0 ->
  descriptors w !! n = None ->
  cleanup h w = (Throw "EBADF: bad file descriptor, close", h, w).
Proof.
  intros Hfd Hn Hdesc. unfold cleanup, closeSync, Js.truthy. mrun.
  rewrite Hfd. destruct (Z.eqb_spec n 0) as [? | _]; [contradiction|].
  cbn [negb]. now rewrite Hdesc.
Qed.

(** C8, as the code has it.  [cleanup] does nothing, and throws nothing, as
    long as no descriptor was acquired, however often it is called; after a
    successful [openFile] (with descriptor 0 in use, as standard input is) it
    closes the descriptor of the session.  The object keeps the descriptor
    number, so a second call asks to close the same number again, which
    [closeSync] refuses. *)
Theorem cleanup_releases_descriptor (content : list byte) (p bs : string)
    (startOffset : Z) (hexa offset : bool) (w : World) :
  files w !! p = Some (RegularFile content) ->
  0 < byteSize content ->
  is_Some (descriptors w !! 0) ->
  (forall h w', fd h = None -> cleanup h w' = (Ret tt, h, w')) /\
  exists h w1 n w2,
    openFile (newHexaFile p bs startOffset hexa offset) w = (Ret tt, h, w1) /\
    fd h = Some n /\
    descriptors w1 !! n = Some content /\
    cleanup h w1 = (Ret tt, h, w2) /\
    descriptors w2 !! n = None /\
    cleanup h w2 = (Throw "EBADF: bad file descriptor, close", h, w2).
Proof.
  intros Hfile Hsize Hstdin.
  split; [intros h w'; apply cleanup_unopened|].
  pose proof (freshDescriptor_nonzero (descriptors w) Hstdin) as Hn.
  rewrite (openFile_spec content) by assumption.
  set (n := freshDescriptor (descriptors w)) in *.
  set (w1 := logged _ _). set (h := opened _ _ _ _ _ _ _).
  assert (Hdesc : descriptors w1 !! n = Some content)
    by apply lookup_insert_eq.
  exists h, w1, n, (set_descriptors (delete n (descriptors w1)) w1).
  split; [reflexivity|]. split; [reflexivity|]. split; [exact Hdesc|].
  split; [exact (cleanup_open h w1 n content eq_refl Hn Hdesc)|].
  split; [apply lookup_delete_eq|].
  apply (cleanup_closed h _ n eq_refl Hn). apply lookup_delete_eq.
Qed.

Lemma cleanup_releases_descriptor_witness :
  (forall h w', fd h = None -> cleanup h w' = (Ret tt, h, w')) /\
  exists h w1 n w2,
    openFile (newHexaFile "abc.bin" "8" 0 true true) sampleWorld
    = (Ret tt, h, w1) /\
    fd h = Some n /\
    descriptors w1 !! n = Some sampleBytes /\
    cleanup h w1 = (Ret tt, h, w2) /\
    descriptors w2 !! n = None /\
    cleanup h w2 = (Throw "EBADF: bad file descriptor, close", h, w2).
Proof.
  apply (cleanup_releases_descriptor sampleBytes "abc.bin" "8" 0 true true
           sampleWorld).
  - reflexivity.
  - reflexivity.
  - exists []. reflexivity.
Defined.

(** C8 as stated fails on the second call: after the sample file has been
    opened and closed once, [cleanup] throws. *)
Lemma cleanup_twice_throws :
  let '(r0, h, w) :=
    openFile (newHexaFile "abc.bin" "8" 0 true true) sampleWorld in
  let '(r1, h1, w1) := cleanup h w in
  let '(r2, _, _) := cleanup h1 w1 in
  r0 = Ret tt /\
  fd h = Some 3 /\
  r1 = Ret tt /\
  descriptors w1 !! 3 = None /\
  r2 = Throw "EBADF: bad file descriptor, close" /\
  r2 <> Ret tt.
Proof. vm_compute. repeat split; discriminate. Qed.

(** ** C9: validation of the parameters *)



(** What is rejected gets the help text and opens nothing. *)
Lemma main_rejected (inv : Invocation) (fuel : nat) (w w' : World) :
  validateParams (optBlockSize inv) (optStartOffset inv) w = (false, w') ->
  exists w'',
    main inv fuel w = Some (HelpAndExit, None, w'') /\
    descriptors w'' = descriptors w /\
    last (console w'') = Some Help.
Proof.
  intros Hv. unfold main. destruct (args inv) as [|p rest].
  - eexists. split; [reflexivity|]. split; [reflexivity|].
    cbn [console emit]. apply last_snoc.
  - rewrite Hv. eexists. split; [reflexivity|].
    split.
    + unfold validateParams in Hv.
      destruct (negb _); [injection Hv as <-; reflexivity|].
      destruct (Js.parseInt _) as [n|]; [|injection Hv as <-; reflexivity].
      destruct (n <? 0); [injection Hv as <-; reflexivity | discriminate].
    + cbn [console emit]. apply last_snoc.
Qed.

(** C9 fails on the block size "128": the pattern [/8|16|32|64/] is not
    anchored, so any string that contains one of the four numerals passes;
    the program opens the file and dumps it in groups of sixteen bytes, and
    prints no help. *)
Theorem validateParams_accepts_128 :
  "128" <> "8" /\ "128" <> "16" /\ "128" <> "32" /\ "128" <> "64" /\
  validateParams "128" "0" sampleWorld = (true, sampleWorld) /\
  match main (sampleInvocation "128" "0") 1 sampleWorld with
  | Some (e, _, w) =>
      e = Dumped /\
      descriptors w !! 3 = Some sampleBytes /\
      console w
      = [Line "00000000   4142434445464748494a............  ................ABCDEFGHIJ.............."]
  | None => False
  end.
Proof.
  do 4 (split; [discriminate|]).
  split; [reflexivity|].
  vm_compute. repeat split; reflexivity.
Qed.

(** ** C10: a reader that walks forward stays inside the buffer *)

Lemma Sorted_lower_head (a b : Z) (l : list Z) :
  a <= b -> Sorted Z.le (b :: l) -> Sorted Z.le (a :: l).
Proof.
  intros Hab Hs. inversion Hs as [|? ? Hl Hhd]; subst.
  constructor; [assumption|].
  destruct Hhd as [|c l' Hbc]; constructor. lia.
Qed.

Lemma readSequence_forward (content : list byte) (offsets : list Z) :
  forall (h : HexaFile) (w : World),
    Session content h w ->
    Sorted Z.le (bufferStart h :: offsets) ->
    exists served h',
      readSequence offsets h w = (Ret served, h', w) /\
      map (fun x => x.1.1) served = offsets /\
      Forall (fun x => x.1.1 < byteSize content ->
                       0 <= x.1.1 - x.1.2 < BUFFER_LENGTH /\
                       x.2 = bufferAt content x.1.1) served /\
      Sorted Z.le (bufferStart h :: map (fun x => x.1.2) served).
Proof.
  induction offsets as [|o rest IH]; intros h w Hs Hsorted.
  - exists [], h. conjs; try reflexivity; constructor; constructor.
  - inversion Hsorted as [|? ? Hrest Hhd]; subst.
    assert (Ho : bufferStart h <= o) by (inversion Hhd; assumption).
    destruct (readByteFromFile_forward content h w o Hs Ho)
      as (start & buf & Hr & Hs1 & Hb & Hidx).
    destruct (IH (moveWindow start buf h) w Hs1) as
      (served & h' & Hrs & Hmap & Hall & Hstarts).
    { apply (Sorted_lower_head _ o); [apply Hb | assumption]. }
    exists ((o, start, byteOfFile content o) :: served), h'.
    conjs.
    + cbn [readSequence]. mrun. rewrite Hr, Hrs. reflexivity.
    + cbn [map fst]. now rewrite Hmap.
    + constructor; [|assumption]. cbn [fst snd]. intros Hin.
      split; [now apply Hidx|].
      unfold byteOfFile. destruct (Z.ltb_spec o (byteSize content));
        [reflexivity | lia].
    + cbn [map fst snd]. constructor; [assumption|].
      constructor. apply Hb.
Qed.

(** C10.  After a successful [openFile], a sequence of [readByteFromFile]
    calls whose offsets start at the window start and never decrease throws
    nothing; every call inside the file looks the buffer up at an index in
    [[0, 512 * 1024)] and returns the byte of the file at its offset; and the
    window start never decreases. *)
Theorem readSequence_within_buffer (content : list byte) (p bs : string)
    (startOffset : Z) (hexa offset : bool) (w : World) (rest : list Z) :
  files w !! p = Some (RegularFile content) ->
  0 < byteSize content ->
  0 <= startOffset ->
  Sorted Z.le (startAfterCheck content startOffset :: rest) ->
  exists h w1 served h',
    openFile (newHexaFile p bs startOffset hexa offset) w = (Ret tt, h, w1) /\
    bufferStart h = startAfterCheck content startOffset /\
    readSequence (bufferStart h :: rest) h w1 = (Ret served, h', w1) /\
    map (fun x => x.1.1) served = bufferStart h :: rest /\
    Forall (fun x => x.1.1 < byteSize content ->
                     0 <= x.1.1 - x.1.2 < 512 * 1024 /\
                     x.2 = bufferAt content x.1.1) served /\
    Sorted Z.le (bufferStart h :: map (fun x => x.1.2) served).
Proof.
  intros Hfile Hsize Hstart Hsorted.
  rewrite (openFile_spec content) by assumption.
  set (w1 := logged _ _).
  set (h := opened _ _ _ _ _ _ _).
  assert (Hs : Session content h w1).
  { apply Session_logged, Session_opened.
    - unfold startAfterCheck. destruct (startOffset >=? _); lia.
    - cbn [descriptors set_descriptors]. apply lookup_insert_eq. }
  destruct (readSequence_forward content (bufferStart h :: rest) h w1 Hs)
    as (served & h' & Hrs & Hmap & Hall & Hstarts).
  { constructor; [exact Hsorted|]. constructor. reflexivity. }
  exists h, w1, served, h'.
  conjs; try reflexivity; assumption.
Qed.

Lemma readSequence_within_buffer_witness :
  exists h w1 served h',
    openFile (newHexaFile "abc.bin" "8" 2 true true) sampleWorld
    = (Ret tt, h, w1) /\
    bufferStart h = startAfterCheck sampleBytes 2 /\
    readSequence (bufferStart h :: [2; 3; 3; 9; 12]) h w1
    = (Ret served, h', w1) /\
    map (fun x => x.1.1) served = bufferStart h :: [2; 3; 3; 9; 12] /\
    Forall (fun x => x.1.1 < byteSize sampleBytes ->
                     0 <= x.1.1 - x.1.2 < 512 * 1024 /\
                     x.2 = bufferAt sampleBytes x.1.1) served /\
    Sorted Z.le (bufferStart h :: map (fun x => x.1.2) served).
Proof.
  apply (readSequence_within_buffer sampleBytes "abc.bin" "8" 2 true true
           sampleWorld [2; 3; 3; 9; 12]).
  - reflexivity.
  - reflexivity.
  - lia.
  - change (startAfterCheck sampleBytes 2) with 2.
    repeat (constructor; try lia).
Defined.

(** * Further properties *)

(** ** Paths that cannot be dumped *)

Lemma openFile_missing (p bs : string) (so : Z) (hexa offset : bool)
    (w : World) :
  files w !! p = None ->
  openFile (newHexaFile p bs so hexa offset) w
  = (Throw ("Error: cannot open file " +:+ p),
     newHexaFile p bs so hexa offset, w).
Proof.
  intros Hfile. unfold openFile, statFile, statSync. mrun.
  cbn [path newHexaFile]. now rewrite Hfile.
Qed.


Lemma openFile_empty (p bs : string) (so : Z) (hexa offset : bool)
    (w : World) :
  files w !! p = Some (RegularFile []) ->
  openFile (newHexaFile p bs so hexa offset) w
  = (Throw "Empty file", statted p bs so hexa offset (Stats.make 0 false), w).
Proof.
  intros Hfile. unfold openFile, statFile, statSync. mrun.
  cbn [path newHexaFile]. now rewrite Hfile.
Qed.

(** The catch block of the program, when [openFile] throws before a
    descriptor is stored. *)
Lemma main_caught (inv : Invocation) (p : string) (rest : list string)
    (so : Z) (fuel : nat) (w w1 : World) (h : HexaFile) (e : string) :
  args inv = p :: rest ->
  Js.matchesAny ["8"; "16"; "32"; "64"] (optBlockSize inv) = true ->
  Js.parseInt (optStartOffset inv) = Some so ->
  0 <= so ->
  openFile (newHexaFile p (optBlockSize inv) so (optHexa inv) (optOffset inv)) w
  = (Throw e, h, w1) ->
  fd h = None ->
  main inv fuel w = Some (Caught e, Some h, emit (Line e) w1).
Proof.
  intros Hargs Hbs Hso Hpos Hopen Hfd.
  unfold main, validateParams. rewrite Hargs, Hbs, Hso. cbn [negb].
  destruct (Z.ltb_spec so 0) as [? | _]; [lia|].
  unfold bind. rewrite Hopen. unfold globalCleanup.
  rewrite cleanup_unopened by assumption. reflexivity.
Qed.

(** A path that names nothing: the program prints the one error line, opens
    no descriptor and ends through its catch block. *)
Theorem main_missing_file (inv : Invocation) (p : string)
    (rest : list string) (so : Z) (fuel : nat) (w : World) :
  args inv = p :: rest ->
  Js.matchesAny ["8"; "16"; "32"; "64"] (optBlockSize inv) = true ->
  Js.parseInt (optStartOffset inv) = Some so ->
  0 <= so ->
  files w !! p = None ->
  exists h w',
    main inv fuel w = Some (Caught ("Error: cannot open file " +:+ p), Some h, w') /\
    console w' = console w ++ [Line ("Error: cannot open file " +:+ p)] /\
    descriptors w' = descriptors w /\
    fstat h = None /\ fd h = None /\ buffer h = None.
Proof.
  intros Hargs Hbs Hso Hpos Hfile.
  eexists _, _. split.
  - apply (main_caught inv p rest so fuel w w _ _ Hargs Hbs Hso Hpos);
      [now apply openFile_missing | reflexivity].
  - repeat split.
Qed.

Lemma main_missing_file_witness :
  exists h w',
    main (sampleInvocation "8" "0") 0
         (worldWith ∅)
    = Some (Caught ("Error: cannot open file " +:+ "abc.bin"), Some h, w') /\
    console w' = console (worldWith ∅) ++ [Line ("Error: cannot open file " +:+ "abc.bin")] /\
    descriptors w' = descriptors (worldWith ∅) /\
    fstat h = None /\ fd h = None /\ buffer h = None.
Proof.
  apply (main_missing_file (sampleInvocation "8" "0") "abc.bin" [] 0 0
           (worldWith ∅)).
  - reflexivity.
  - reflexivity.
  - reflexivity.
  - lia.
  - reflexivity.
Defined.



(** A file of no bytes: the program prints "Empty file", no line of a dump,
    and opens no descriptor. *)
Theorem main_empty_file (inv : Invocation) (p : string) (rest : list string)
    (so : Z) (fuel : nat) (w : World) :
  args inv = p :: rest ->
  Js.matchesAny ["8"; "16"; "32"; "64"] (optBlockSize inv) = true ->
  Js.parseInt (optStartOffset inv) = Some so ->
  0 <= so ->
  files w !! p = Some (RegularFile []) ->
  exists h w',
    main inv fuel w = Some (Caught "Empty file", Some h, w') /\
    console w' = console w ++ [Line "Empty file"] /\
    descriptors w' = descriptors w /\
    fd h = None /\ buffer h = None.
Proof.
  intros Hargs Hbs Hso Hpos Hfile.
  eexists _, _. split.
  - apply (main_caught inv p rest so fuel w w _ _ Hargs Hbs Hso Hpos);
      [now apply openFile_empty | reflexivity].
  - repeat split.
Qed.

Lemma main_empty_file_witness :
  exists h w',
    main (sampleInvocation "8" "0") 0
         (worldWith {[ "abc.bin" := RegularFile [] ]})
    = Some (Caught "Empty file", Some h, w') /\
    console w' = console (worldWith {[ "abc.bin" := RegularFile [] ]}) ++ [Line "Empty file"] /\
    descriptors w' = descriptors (worldWith {[ "abc.bin" := RegularFile [] ]}) /\
    fd h = None /\ buffer h = None.
Proof.
  apply (main_empty_file (sampleInvocation "8" "0") "abc.bin" [] 0 0
           (worldWith {[ "abc.bin" := RegularFile [] ]})).
  - reflexivity.
  - reflexivity.
  - reflexivity.
  - lia.
  - reflexivity.
Defined.

(** ** Options that are turned down *)



(** ** A start offset inside the file *)

(** A start offset inside the file is kept: no warning is printed, the dump
    is the [lineCount] lines from that offset on, the program ends by
    itself, and the descriptor it opened is still open then: a finished dump
    never calls [cleanup]. *)
Theorem main_startOffset_inside (inv : Invocation) (p : string)
    (rest : list string) (content : list byte) (so : Z) (fuel : nat)
    (w : World) :
  args inv = p :: rest ->
  files w !! p = Some (RegularFile content) ->
  Js.matchesAny ["8"; "16"; "32"; "64"] (optBlockSize inv) = true ->
  Js.parseInt (optStartOffset inv) = Some so ->
  0 <= so < byteSize content ->
  (lineCount content <= fuel)%nat ->
  exists h0 w0 h' w',
    openFile (newHexaFile p (optBlockSize inv) so (optHexa inv) (optOffset inv)) w
    = (Ret tt, h0, w0) /\
    console w0 = console w /\
    currentOffset h0 = so /\
    bufferStart h0 = so /\
    main inv fuel w = Some (Dumped, Some h', w') /\
    console w'
    = console w ++ linesFrom (isWindows w) h0 content so (lineCount content) /\
    descriptors w' !! freshDescriptor (descriptors w) = Some content.
Proof.
  intros Hargs Hfile Hbs Hso Hin Hfuel.
  destruct (open_print_spec content p (optBlockSize inv) so (optHexa inv)
              (optOffset inv) w fuel Hfile ltac:(lia) ltac:(lia) Hfuel)
    as (Hopen & h' & Hprint).
  unfold startAfterCheck in *.
  destruct (Z.geb_spec so (byteSize content)) as [? | _]; [lia|].
  eexists _, _, h', _.
  split; [exact Hopen|].
  split; [cbn [console logged set_descriptors]; apply app_nil_r|].
  split; [reflexivity|]. split; [reflexivity|].
  split; [exact (main_dumped inv p rest so fuel _ _ _ _ _ Hargs Hbs Hso
                   ltac:(lia) Hopen Hprint)|].
  split.
  - cbn [console logged set_descriptors]. now rewrite app_nil_r.
  - cbn [descriptors logged set_descriptors]. apply lookup_insert_eq.
Qed.

Lemma main_startOffset_inside_witness :
  exists h0 w0 h' w',
    openFile (newHexaFile "abc.bin" "16" 4 true true) sampleWorld
    = (Ret tt, h0, w0) /\
    console w0 = console sampleWorld /\
    currentOffset h0 = 4 /\
    bufferStart h0 = 4 /\
    main (sampleInvocation "16" "4") 1 sampleWorld
    = Some (Dumped, Some h', w') /\
    console w'
    = console sampleWorld
      ++ linesFrom (isWindows sampleWorld) h0 sampleBytes 4
                   (lineCount sampleBytes) /\
    descriptors w' !! freshDescriptor (descriptors sampleWorld)
    = Some sampleBytes.
Proof.
  apply (main_startOffset_inside (sampleInvocation "16" "4") "abc.bin" []
           sampleBytes 4 1 sampleWorld).
  - reflexivity.
  - reflexivity.
  - reflexivity.
  - reflexivity.
  - vm_compute. split; [discriminate | reflexivity].
  - vm_compute. lia.
Defined.

(** ** The hexadecimal column reads back as the bytes of the file *)

Lemma byteValue_range (b : byte) : 0 <= byteValue b <= 255.
Proof.
  unfold byteValue. pose proof (Byte.to_N_bounded b) as Hb. lia.
Qed.

Lemma hexValue_renderByteHexa (b : byte) :
  String.length (renderByteHexa (Js.Num (byteValue b))) = 2%nat /\
  hexValue (renderByteHexa (Js.Num (byteValue b))) = Some (byteValue b).
Proof. destruct b; vm_compute; split; reflexivity. Qed.

Lemma decodeHexa_byte (b : byte) (rest : string) :
  decodeHexa (renderByteHexa (Js.Num (byteValue b)) +:+ rest)
  = cons (byteValue b) <$> decodeHexa rest.
Proof. destruct b; reflexivity. Qed.

Lemma bufferAt_lookup (content : list byte) (offset : Z) :
  0 <= offset < byteSize content ->
  exists b,
    content !! Z.to_nat offset = Some b /\
    bufferAt content offset = Js.Num (byteValue b).
Proof.
  intros Hoff. unfold bufferAt, byteSize in *.
  destruct (lookup_lt_is_Some_2 content (Z.to_nat offset) ltac:(lia))
    as [b Hb].
  exists b. split; [assumption|].
  destruct (Z.leb_spec 0 offset); [|lia]. now rewrite Hb.
Qed.

(** A byte of the file, read through the window, is rendered as two
    lowercase hexadecimal digits that read back as that byte. *)
Theorem getByteHexa_roundtrip (content : list byte) (h : HexaFile)
    (w : World) (offset : Z) :
  Session content h w ->
  bufferStart h <= offset < byteSize content ->
  exists b cell h',
    content !! Z.to_nat offset = Some b /\
    getByteHexa offset h w = (Ret cell, h', w) /\
    String.length cell = 2%nat /\
    hexValue cell = Some (byteValue b) /\
    0 <= byteValue b <= 255.
Proof.
  intros Hs Hoff.
  destruct (readByteFromFile_served content h w offset Hs Hoff)
    as (start & buf & Heq & _ & _ & _ & Hbyte).
  destruct (bufferAt_lookup content offset) as (b & Hb & Hval).
  { pose proof (session_start _ _ _ Hs). lia. }
  rewrite Hbyte, Hval in Heq.
  exists b, (renderByteHexa (Js.Num (byteValue b))), (moveWindow start buf h).
  split; [assumption|].
  split; [now apply getByteHexa_renderByteHexa|].
  destruct (hexValue_renderByteHexa b) as [Hl Hv].
  split; [exact Hl|]. split; [exact Hv | apply byteValue_range].
Qed.

Lemma getByteHexa_roundtrip_witness :
  exists b cell h',
    sampleBytes !! Z.to_nat 9 = Some b /\
    getByteHexa 9 (sampleOpened "8" 5) sampleOpenWorld
    = (Ret cell, h', sampleOpenWorld) /\
    String.length cell = 2%nat /\
    hexValue cell = Some (byteValue b) /\
    0 <= byteValue b <= 255.
Proof.
  apply (getByteHexa_roundtrip sampleBytes (sampleOpened "8" 5)
           sampleOpenWorld 9).
  - apply sample_Session. lia.
  - vm_compute. split; [discriminate | reflexivity].
Defined.

Section Readback.

Variable content : list byte.

Lemma fileSlice_beyond (offset : Z) (n : nat) :
  byteSize content <= offset -> fileSlice content offset n = [].
Proof.
  intros Hoff. unfold fileSlice, byteSize in *.
  rewrite drop_ge by lia. now rewrite take_nil.
Qed.

Lemma fileSlice_cons (offset : Z) (n : nat) (b : byte) :
  0 <= offset ->
  content !! Z.to_nat offset = Some b ->
  fileSlice content offset (S n)
  = byteValue b :: fileSlice content (offset + 1) n.
Proof.
  intros Hoff Hb. unfold fileSlice.
  rewrite (drop_S _ _ _ Hb). cbn [take fmap list_fmap].
  replace (Z.to_nat (offset + 1)) with (S (Z.to_nat offset)) by lia.
  reflexivity.
Qed.

Lemma length_fileSlice (offset : Z) (n : nat) :
  (length (fileSlice content offset n) <= n)%nat.
Proof.
  unfold fileSlice. rewrite length_fmap, length_take. lia.
Qed.

Lemma decodeHexa_separator (rest : string) :
  decodeHexa ("  " +:+ rest) = decodeHexa rest.
Proof. reflexivity. Qed.

Lemma decodeHexa_eof (rest : string) :
  decodeHexa (".." +:+ rest) = decodeHexa rest.
Proof. reflexivity. Qed.

Lemma decodeHexa_hexColumn (spacing : option Q) (start : Z) (turns : nat) :
  forall pos,
    0 <= start + pos ->
    decodeHexa (hexColumn spacing content start turns pos)
    = Some (fileSlice content (start + pos) turns).
Proof.
  induction turns as [|turns IH]; intros pos Hpos.
  - unfold fileSlice. now rewrite take_0.
  - cbn [hexColumn].
    assert (Hrest : decodeHexa
                      ((if groupEnds spacing (pos + 1)
                        then "  " else EmptyString)
                       +:+ hexColumn spacing content start turns (pos + 1))
                    = Some (fileSlice content (start + pos + 1) turns)).
    { destruct (groupEnds spacing (pos + 1)).
      - rewrite decodeHexa_separator, IH by lia. do 2 f_equal. lia.
      - rewrite append_nil, IH by lia. do 2 f_equal. lia. }
    unfold byteOfFile.
    destruct (Z.ltb_spec (start + pos) (byteSize content)) as [Hin | Hout].
    + destruct (bufferAt_lookup content (start + pos) ltac:(lia))
        as (b & Hb & Hval).
      rewrite Hval, decodeHexa_byte, Hrest.
      now rewrite (fileSlice_cons _ _ b) by assumption.
    + change (renderByteHexa (Js.Num (-1))) with "..".
      rewrite decodeHexa_eof, Hrest.
      now rewrite !fileSlice_beyond by lia.
Qed.

Lemma renderAscii_printable (win : bool) (v : Z) :
  32 <= v < 127 -> renderAscii win (Js.Num v) = Js.fromCharCode v.
Proof.
  intros Hv. unfold renderAscii, Js.gt, Js.ge, Js.lt, Js.strict_ne.
  rewrite Z.geb_leb.
  destruct (Z.leb_spec 32 v), (Z.ltb_spec v 127), (Z.eqb_spec v 173);
    try lia.
  now rewrite andb_true_r, orb_true_r.
Qed.

Lemma asciiColumn_beyond (win : bool) (start : Z) (turns : nat) :
  forall pos,
    byteSize content <= start + pos ->
    asciiColumn win content start turns pos = dots turns.
Proof.
  induction turns as [|turns IH]; intros pos Hpos; [reflexivity|].
  cbn [asciiColumn dots]. rewrite IH by lia. unfold byteOfFile.
  destruct (Z.ltb_spec (start + pos) (byteSize content)); [lia|].
  now destruct win.
Qed.

Lemma asciiColumn_text (win : bool) (start : Z) (turns : nat) :
  forall pos,
    0 <= start + pos ->
    Forall (fun v => 32 <= v < 127) (fileSlice content (start + pos) turns) ->
    asciiColumn win content start turns pos
    = textOf (fileSlice content (start + pos) turns)
      +:+ dots (turns - length (fileSlice content (start + pos) turns)).
Proof.
  induction turns as [|turns IH]; intros pos Hpos Hall.
  - unfold fileSlice. now rewrite take_0.
  - destruct (Z.ltb_spec (start + pos) (byteSize content)) as [Hin | Hout].
    + destruct (bufferAt_lookup content (start + pos) ltac:(lia))
        as (b & Hb & Hval).
      rewrite (fileSlice_cons _ _ b) in Hall |- * by assumption.
      inversion Hall as [|? ? Hv Hall']; subst.
      cbn [asciiColumn textOf length]. unfold byteOfFile.
      destruct (Z.ltb_spec (start + pos) (byteSize content)); [|lia].
      rewrite Hval, renderAscii_printable by assumption.
      rewrite IH.
      * replace (start + (pos + 1)) with (start + pos + 1) by lia.
        now rewrite !append_assoc.
      * lia.
      * now replace (start + (pos + 1)) with (start + pos + 1) by lia.
    + rewrite fileSlice_beyond by assumption.
      cbn [textOf length]. rewrite append_nil, Nat.sub_0_r.
      now apply asciiColumn_beyond.
Qed.

End Readback.

(** Whatever the grouping, the hexadecimal column of a line reads back as
    the bytes of the file under the cursor: the 24 bytes from
    [currentOffset] on, fewer on the last line, none beyond the file. *)
Theorem generateLine_hexa_roundtrip (content : list byte) (h : HexaFile)
    (w : World) (spacing : option Q) :
  Session content h w ->
  bufferStart h <= currentOffset h ->
  exists hexa ascii h',
    generateLine_loop (Z.to_nat LINE_WIDTH) spacing 0
                      EmptyString EmptyString h w
    = (Ret (hexa, ascii), h', w) /\
    decodeHexa hexa = Some (fileSlice content (currentOffset h) 24).
Proof.
  intros Hs Hcur.
  destruct (generateLine_loop_spec content (Z.to_nat LINE_WIDTH) spacing
              0 EmptyString EmptyString h w Hs ltac:(lia))
    as (start & buf & Hl & _ & _).
  rewrite columnsAt_columns, !append_nil in Hl.
  eexists _, _, _. split; [exact Hl|].
  pose proof (session_start _ _ _ Hs).
  rewrite decodeHexa_hexColumn by lia.
  now rewrite Z.add_0_r.
Qed.

Lemma generateLine_hexa_roundtrip_witness :
  exists hexa ascii h',
    generateLine_loop (Z.to_nat LINE_WIDTH) (Some (4 # 1)%Q) 0
                      EmptyString EmptyString (sampleOpened "32" 3)
                      sampleOpenWorld
    = (Ret (hexa, ascii), h', sampleOpenWorld) /\
    decodeHexa hexa
    = Some (fileSlice sampleBytes (currentOffset (sampleOpened "32" 3)) 24).
Proof.
  apply (generateLine_hexa_roundtrip sampleBytes (sampleOpened "32" 3)
           sampleOpenWorld (Some (4 # 1)%Q)).
  - apply sample_Session. lia.
  - vm_compute. discriminate.
Defined.

(** When the bytes under the cursor are printable ASCII (32 to 126), the
    character column of the line is their text, padded with dots to 24
    characters, on every platform. *)
Theorem generateLine_ascii_text (content : list byte) (h : HexaFile)
    (w : World) (spacing : option Q) :
  Session content h w ->
  bufferStart h <= currentOffset h ->
  Forall (fun v => 32 <= v < 127) (fileSlice content (currentOffset h) 24) ->
  exists hexa ascii h',
    generateLine_loop (Z.to_nat LINE_WIDTH) spacing 0
                      EmptyString EmptyString h w
    = (Ret (hexa, ascii), h', w) /\
    ascii
    = textOf (fileSlice content (currentOffset h) 24)
      +:+ dots (24 - length (fileSlice content (currentOffset h) 24)) /\
    String.length ascii = 24%nat.
Proof.
  intros Hs Hcur Hall.
  destruct (generateLine_loop_spec content (Z.to_nat LINE_WIDTH) spacing
              0 EmptyString EmptyString h w Hs ltac:(lia))
    as (start & buf & Hl & _ & _).
  rewrite columnsAt_columns, !append_nil in Hl.
  change (Z.to_nat LINE_WIDTH) with 24%nat in Hl at 2 3.
  eexists _, _, _. split; [exact Hl|].
  pose proof (session_start _ _ _ Hs).
  split.
  - rewrite (asciiColumn_text content (isWindows w) (currentOffset h) 24 0)
      by (rewrite ?Z.add_0_r; (lia || assumption)).
    now rewrite Z.add_0_r.
  - apply length_asciiColumn.
Qed.

Lemma generateLine_ascii_text_witness :
  exists hexa ascii h',
    generateLine_loop (Z.to_nat LINE_WIDTH) None 0
                      EmptyString EmptyString (sampleOpened "8" 0)
                      sampleOpenWorld
    = (Ret (hexa, ascii), h', sampleOpenWorld) /\
    ascii
    = textOf (fileSlice sampleBytes (currentOffset (sampleOpened "8" 0)) 24)
      +:+ dots (24 - length (fileSlice sampleBytes
                               (currentOffset (sampleOpened "8" 0)) 24)) /\
    String.length ascii = 24%nat.
Proof.
  apply (generateLine_ascii_text sampleBytes (sampleOpened "8" 0)
           sampleOpenWorld None).
  - apply sample_Session. lia.
  - vm_compute. discriminate.
  - vm_compute. repeat constructor; discriminate.
Defined.

(** ** Grouping for the other block sizes *)

(** For the four block sizes the program names, the hexadecimal column has a
    separator exactly after the cells whose count is a multiple of
    [blockSize / 8], the last cell included. *)
Theorem generateLine_grouping (content : list byte) (h : HexaFile)
    (w : World) (b : Z) :
  Session content h w ->
  bufferStart h <= currentOffset h ->
  blockSize h = Some b ->
  b = 8 \/ b = 16 \/ b = 32 \/ b = 64 ->
  exists hexa ascii h',
    generateLine_loop (Z.to_nat LINE_WIDTH) (spacingOf h) 0
                      EmptyString EmptyString h w
    = (Ret (hexa, ascii), h', w) /\
    separatorsAfter 0 hexa = Some (multiplesOf (Z.to_nat (b / 8))) /\
    length (multiplesOf (Z.to_nat (b / 8))) = Z.to_nat (24 / (b / 8)).
Proof.
  intros Hs Hcur Hbs Hb.
  destruct (generateLine_loop_spec content (Z.to_nat LINE_WIDTH) (spacingOf h)
              0 EmptyString EmptyString h w Hs ltac:(lia))
    as (start & buf & Hl & _ & _).
  rewrite columnsAt_columns, !append_nil in Hl.
  eexists _, _, _. split; [exact Hl|].
  rewrite separatorsAfter_hexColumn.
  unfold spacingOf. rewrite Hbs.
  destruct Hb as [-> | [-> | [-> | ->]]]; vm_compute; split; reflexivity.
Qed.

Lemma generateLine_grouping_witness :
  exists hexa ascii h',
    generateLine_loop (Z.to_nat LINE_WIDTH) (spacingOf (sampleOpened "64" 0))
                      0 EmptyString EmptyString (sampleOpened "64" 0)
                      sampleOpenWorld
    = (Ret (hexa, ascii), h', sampleOpenWorld) /\
    separatorsAfter 0 hexa = Some (multiplesOf (Z.to_nat (64 / 8))) /\
    length (multiplesOf (Z.to_nat (64 / 8))) = Z.to_nat (24 / (64 / 8)).
Proof.
  apply (generateLine_grouping sampleBytes (sampleOpened "64" 0)
           sampleOpenWorld 64).
  - apply sample_Session. lia.
  - vm_compute. discriminate.
  - reflexivity.
  - right. right. right. reflexivity.
Defined.

(** A block size that [parseInt] reads as [NaN], or as 0, makes the
    remainder test [NaN]: every cell is followed by a separator. *)
Theorem generateLine_grouping_NaN (content : list byte) (h : HexaFile)
    (w : World) :
  Session content h w ->
  bufferStart h <= currentOffset h ->
  blockSize h = None \/ blockSize h = Some 0 ->
  exists hexa ascii h',
    generateLine_loop (Z.to_nat LINE_WIDTH) (spacingOf h) 0
                      EmptyString EmptyString h w
    = (Ret (hexa, ascii), h', w) /\
    separatorsAfter 0 hexa = Some (seq 1 24).
Proof.
  intros Hs Hcur Hbs.
  destruct (generateLine_loop_spec content (Z.to_nat LINE_WIDTH) (spacingOf h)
              0 EmptyString EmptyString h w Hs ltac:(lia))
    as (start & buf & Hl & _ & _).
  rewrite columnsAt_columns, !append_nil in Hl.
  eexists _, _, _. split; [exact Hl|].
  rewrite separatorsAfter_hexColumn.
  unfold spacingOf. destruct Hbs as [-> | ->]; vm_compute; reflexivity.
Qed.

Lemma generateLine_grouping_NaN_witness :
  Js.matchesAny ["8"; "16"; "32"; "64"] "x8" = true /\
  exists hexa ascii h',
    generateLine_loop (Z.to_nat LINE_WIDTH) (spacingOf (sampleOpened "x8" 0))
                      0 EmptyString EmptyString (sampleOpened "x8" 0)
                      sampleOpenWorld
    = (Ret (hexa, ascii), h', sampleOpenWorld) /\
    separatorsAfter 0 hexa = Some (seq 1 24).
Proof.
  split; [reflexivity|].
  apply (generateLine_grouping_NaN sampleBytes (sampleOpened "x8" 0)
           sampleOpenWorld).
  - apply sample_Session. lia.
  - vm_compute. discriminate.
  - left. reflexivity.
Defined.

(** ** The width of a line *)

Lemma length_convertOffsetTotHexa (o : Z) :
  0 <= o < 2 ^ 64 ->
  String.length (convertOffsetTotHexa o)
  = (if (o <=? MAX_32BIT)%Z then 8%nat else 16%nat).
Proof.
  intros Ho.
  destruct (toString16_spec o ltac:(lia)) as (ds & Hds & Hlen & Hmin & Hval).
  unfold convertOffsetTotHexa. rewrite Hds.
  destruct (Z.leb_spec o MAX_32BIT) as [Hsmall | Hbig].
  - change "00000000" with (zeros 8).
    apply substrFromEnd_pad with (n := o); [|assumption].
    pose proof (Hmin 8 ltac:(lia)
                  ltac:(change (16 ^ 8) with (MAX_32BIT + 1); lia)).
    lia.
  - change "0000000000000000" with (zeros 16).
    apply substrFromEnd_pad with (n := o); [|assumption].
    pose proof (Hmin 16 ltac:(lia)
                  ltac:(change (16 ^ 16) with (2 ^ 64); lia)).
    lia.
Qed.

Lemma length_lineAt (win : bool) (h : HexaFile) (content : list byte)
    (start : Z) :
  0 <= start < 2 ^ 64 ->
  String.length (lineAt win h content start) = lineLength h start.
Proof.
  intros Hstart. unfold lineAt, lineLength.
  rewrite columnsAt_columns, !append_nil.
  rewrite !length_append.
  pose proof (length_asciiColumn content win start (Z.to_nat LINE_WIDTH) 0)
    as Ha.
  pose proof (length_hexColumn content (spacingOf h) start
                (Z.to_nat LINE_WIDTH) 0 0) as Hx.
  destruct (showOffset h), (showHexa h);
    rewrite ?length_append, ?length_convertOffsetTotHexa, ?Ha, ?Hx
      by assumption;
    destruct (start <=? MAX_32BIT); simpl String.length; lia.
Qed.

(** The line [printLine] writes has a length fixed by the options and by
    the width of the offset column alone: 8 or 16 digits and 3 spaces when
    the offset is shown, 48 digits and the separators when the hexadecimal
    column is shown, and 24 characters; the bytes and the end of the file do
    not change it. *)
Theorem printLine_length (content : list byte) (h : HexaFile) (w : World) :
  Session content h w ->
  bufferStart h <= currentOffset h ->
  currentOffset h < 2 ^ 64 ->
  exists again h' line,
    printLine h w = (Ret again, h', emit (Line line) w) /\
    String.length line = lineLength h (currentOffset h) /\
    currentOffset h' = currentOffset h + 24.
Proof.
  intros Hs Hcur Hbig.
  destruct (printLine_spec content h w Hs Hcur) as (start & buf & Hp & _).
  eexists _, _, _. split; [exact Hp|].
  split; [|reflexivity].
  apply length_lineAt. pose proof (session_start _ _ _ Hs). lia.
Qed.

Lemma printLine_length_witness :
  exists again h' line,
    printLine (sampleOpened "8" 0) sampleOpenWorld
    = (Ret again, h', emit (Line line) sampleOpenWorld) /\
    String.length line
    = lineLength (sampleOpened "8" 0) (currentOffset (sampleOpened "8" 0)) /\
    currentOffset h' = currentOffset (sampleOpened "8" 0) + 24.
Proof.
  apply (printLine_length sampleBytes (sampleOpened "8" 0) sampleOpenWorld).
  - apply sample_Session. lia.
  - vm_compute. discriminate.
  - vm_compute. reflexivity.
Defined.

(** ** A file that fits the buffer is read once *)

Section SingleRead.

Variable content : list byte.

Lemma readByteFromFile_still (h : HexaFile) (w : World) (offset : Z) :
  Session content h w ->
  bufferStart h <= offset ->
  byteSize content <= BUFFER_LENGTH + bufferStart h ->
  readByteFromFile offset h w = (Ret (byteOfFile content offset), h, w).
Proof.
  intros Hs Hoff Hfit. unfold byteOfFile.
  destruct (Z.ltb_spec offset (byteSize content)) as [Hin | Hout].
  - destruct Hs as [Hstat _ (buf & Hbuf & Hwin) Hstart].
    unfold readByteFromFile, bind, this. rewrite Hstat. cbn [Stats.size].
    destruct (Z.ltb_spec offset (byteSize content)) as [_ | ?]; [|lia].
    unfold checkBuffer, bind, this.
    destruct (Z.geb_spec offset (BUFFER_LENGTH + bufferStart h)); [lia|].
    unfold ret. rewrite Hbuf.
    now rewrite (bufferAt_holdsWindow content (bufferStart h) offset buf)
      by (assumption || lia).
  - apply (readByteFromFile_eof content); [apply Hs | assumption].
Qed.

Lemma generateLine_loop_still (turns : nat) :
  forall (spacing : option Q) (pos : Z) (hexa ascii : string)
         (h : HexaFile) (w : World),
    Session content h w ->
    bufferStart h <= currentOffset h + pos ->
    byteSize content <= BUFFER_LENGTH + bufferStart h ->
    generateLine_loop turns spacing pos hexa ascii h w
    = (Ret (columnsAt (isWindows w) spacing content (currentOffset h)
                      turns pos hexa ascii), h, w).
Proof.
  induction turns as [|turns IH]; intros spacing pos hexa ascii h w Hs Hpos Hfit;
    [reflexivity|].
  pose proof (readByteFromFile_still h w (currentOffset h + pos) Hs Hpos Hfit)
    as Hr.
  cbn [generateLine_loop columnsAt].
  unfold bind at 1. unfold this at 1.
  unfold bind at 1. unfold getByteHexa at 1. unfold bind at 1.
  rewrite Hr. unfold ret at 1.
  unfold bind at 1. unfold getAscii at 1. unfold bind at 1.
  rewrite Hr. unfold bind at 1. unfold world at 1. unfold ret at 1.
  apply IH; [assumption | lia | assumption].
Qed.

Lemma printLine_still (h : HexaFile) (w : World) :
  Session content h w ->
  bufferStart h <= currentOffset h ->
  byteSize content <= BUFFER_LENGTH + bufferStart h ->
  printLine h w
  = (Ret (currentLine h + 1 <? maxLine h),
     set_currentLine (currentLine h + 1)
       (set_currentOffset (currentOffset h + LINE_WIDTH) h),
     emit (Line (lineAt (isWindows w) h content (currentOffset h))) w).
Proof.
  intros Hs Hcur Hfit.
  pose proof (generateLine_loop_still (Z.to_nat LINE_WIDTH) (spacingOf h) 0
                EmptyString EmptyString h w Hs ltac:(lia) Hfit) as Hl.
  assert (Hg : generateLine h w
               = (Ret (let '(hexa, ascii) :=
                         columnsAt (isWindows w) (spacingOf h) content
                                   (currentOffset h) (Z.to_nat LINE_WIDTH) 0
                                   EmptyString EmptyString in
                       if showHexa h then hexa +:+ ascii else ascii), h, w)).
  { unfold generateLine, bind at 1, this at 1.
    unfold bind at 1. fold (spacingOf h). rewrite Hl.
    destruct (columnsAt _ _ _ _ _ _ _ _) as [hexa ascii]. reflexivity. }
  unfold printLine, lineAt, bind at 1, this at 1.
  destruct (showOffset h) eqn:Hoff.
  - unfold bind at 1, bind at 1, getOffset, bind at 1, this at 1, ret at 1,
      ret at 1.
    unfold bind at 1. rewrite Hg.
    destruct (columnsAt _ _ _ _ _ _ _ _) as [hexa ascii]. reflexivity.
  - unfold bind at 1, ret at 1.
    unfold bind at 1. rewrite Hg.
    destruct (columnsAt _ _ _ _ _ _ _ _) as [hexa ascii]. reflexivity.
Qed.

Lemma runImmediates_still (fuel : nat) :
  forall (pending : bool) (h h' : HexaFile) (w w' : World) (r : outcome unit),
    Session content h w ->
    bufferStart h <= currentOffset h ->
    byteSize content <= BUFFER_LENGTH + bufferStart h ->
    runImmediates fuel pending h w = Some (r, h', w') ->
    buffer h' = buffer h /\ bufferStart h' = bufferStart h /\ fd h' = fd h.
Proof.
  induction fuel as [|fuel IH];
    intros pending h h' w w' r Hs Hcur Hfit Hrun.
  - destruct pending; [discriminate|]. now injection Hrun as <- <- <-.
  - destruct pending; [|now injection Hrun as <- <- <-].
    cbn [runImmediates] in Hrun.
    rewrite (printLine_still h w Hs Hcur Hfit) in Hrun.
    apply IH in Hrun; [exact Hrun | | |].
    + apply Session_emit. destruct Hs as [? ? ? ?]. split; assumption.
    + cbn [bufferStart currentOffset set_currentLine set_currentOffset].
      change LINE_WIDTH with 24. lia.
    + exact Hfit.
Qed.

End SingleRead.

(** When the bytes of the file from the start offset on fit the buffer, the
    chunk [openFile] reads is the only one: the whole dump leaves the buffer
    and the window start as [openFile] set them. *)
Theorem dump_reads_once (content : list byte) (p bs : string)
    (startOffset : Z) (hexa offset : bool) (w : World) (fuel : nat) :
  files w !! p = Some (RegularFile content) ->
  0 < byteSize content ->
  0 <= startOffset ->
  byteSize content <= BUFFER_LENGTH + startAfterCheck content startOffset ->
  (lineCount content <= fuel)%nat ->
  exists h w1 h' w2,
    openFile (newHexaFile p bs startOffset hexa offset) w = (Ret tt, h, w1) /\
    printAll fuel h w1 = Some (Ret tt, h', w2) /\
    buffer h' = buffer h /\
    bufferStart h' = bufferStart h /\
    bufferStart h = startAfterCheck content startOffset.
Proof.
  intros Hfile Hsize Hstart Hfit Hfuel.
  destruct (open_print_spec content p bs startOffset hexa offset w fuel
              Hfile Hsize Hstart Hfuel) as (Hopen & h' & Hprint).
  set (h := opened _ _ _ _ _ _ _) in *. set (w1 := logged _ _) in *.
  assert (Hs : Session content h w1).
  { apply Session_logged, Session_opened.
    - unfold startAfterCheck. destruct (startOffset >=? _); lia.
    - cbn [descriptors set_descriptors]. apply lookup_insert_eq. }
  exists h, w1, h'. eexists. split; [exact Hopen|]. split; [exact Hprint|].
  unfold printAll, print in Hprint. revert Hprint. mrun.
  rewrite (session_fstat _ _ _ Hs). cbn [Stats.size].
  set (n := Qceiling _). set (h0 := set_currentLine 0 (set_maxLine n h)).
  assert (Hs0 : Session content h0 w1).
  { destruct Hs as [? ? ? ?]. split; assumption. }
  rewrite (printLine_still content h0 w1 Hs0 ltac:(reflexivity) Hfit).
  intros Hrun.
  apply (runImmediates_still content) in Hrun.
  - destruct Hrun as (Hb & Hbs & _). repeat split; assumption.
  - apply Session_emit. destruct Hs0 as [? ? ? ?]. split; assumption.
  - cbn [bufferStart currentOffset set_currentLine set_currentOffset].
    change (bufferStart h0) with (currentOffset h0).
    change LINE_WIDTH with 24. lia.
  - exact Hfit.
Qed.

Lemma dump_reads_once_witness :
  exists h w1 h' w2,
    openFile (newHexaFile "abc.bin" "8" 3 true true) sampleWorld
    = (Ret tt, h, w1) /\
    printAll 1 h w1 = Some (Ret tt, h', w2) /\
    buffer h' = buffer h /\
    bufferStart h' = bufferStart h /\
    bufferStart h = startAfterCheck sampleBytes 3.
Proof.
  apply (dump_reads_once sampleBytes "abc.bin" "8" 3 true true sampleWorld 1).
  - reflexivity.
  - reflexivity.
  - lia.
  - vm_compute. discriminate.
  - vm_compute. lia.
Defined.

(** ** A broken pipe between two lines *)

Section Signal.

Variable content : list byte.

Lemma runUntilSignal_spec (k : nat) :
  forall (h : HexaFile) (w : World) (n : Z),
    Session content h w ->
    bufferStart h <= currentOffset h ->
    fd h = Some n ->
    n <> 0 ->
    Z.of_nat k < maxLine h - currentLine h ->
    exists h',
      runUntilSignal k (currentLine h <? maxLine h) h w
      = (true,
         (Ret tt, Some h',
          set_descriptors (delete n (descriptors w))
            (logged (linesFrom (isWindows w) h content (currentOffset h) k)
                    w))).
Proof.
  induction k as [|k IH]; intros h w n Hs Hcur Hfd Hn Hleft;
    destruct (Z.ltb_spec (currentLine h) (maxLine h)) as [_ | ?]; try lia.
  - destruct (session_fd _ _ _ Hs) as (n' & Hfd' & Hdesc).
    assert (n' = n) by congruence. subst n'.
    exists h. cbn [runUntilSignal]. unfold globalCleanup.
    rewrite (cleanup_open h w n content Hfd Hn Hdesc).
    unfold linesFrom. cbn [seq map]. now rewrite logged_nil.
  - destruct (printLine_spec content h w Hs Hcur)
      as (start & buf & Hp & Hs' & Hb).
    cbn [runUntilSignal]. rewrite Hp.
    destruct (IH (afterLine start buf h)
                (emit (Line (lineAt (isWindows w) h content (currentOffset h))) w)
                n) as (h' & Hrun).
    + now apply Session_emit.
    + simpl. lia.
    + exact Hfd.
    + exact Hn.
    + simpl. lia.
    + exists h'.
      change (currentLine (afterLine start buf h) <? maxLine (afterLine start buf h))
        with (currentLine h + 1 <? maxLine h) in Hrun.
      change (isWindows (emit _ w)) with (isWindows w) in Hrun.
      change (descriptors (emit _ w)) with (descriptors w) in Hrun.
      change (currentOffset (afterLine start buf h))
        with (currentOffset h + LINE_WIDTH) in Hrun.
      rewrite (linesFrom_ext content _ (afterLine start buf h) h) in Hrun
        by reflexivity.
      rewrite Hrun, logged_emit, linesFrom_S. reflexivity.
Qed.

Lemma print_spec_session (h : HexaFile) (w : World) :
  Session content h w ->
  bufferStart h <= currentOffset h ->
  exists start buf,
    print h w
    = (Ret (0 + 1 <? Z.of_nat (lineCount content)),
       afterLine start buf
         (set_currentLine 0 (set_maxLine (Z.of_nat (lineCount content)) h)),
       emit (Line (lineAt (isWindows w) h content (currentOffset h))) w) /\
    Session content
      (afterLine start buf
         (set_currentLine 0 (set_maxLine (Z.of_nat (lineCount content)) h)))
      w /\
    start <= currentOffset h + LINE_WIDTH.
Proof.
  intros Hs Hcur. unfold print. mrun.
  rewrite (session_fstat _ _ _ Hs). cbn [Stats.size].
  assert (Hn : Qceiling (inject_Z (byteSize content) / inject_Z LINE_WIDTH)
               = Z.of_nat (lineCount content)).
  { unfold lineCount. rewrite Z2Nat.id; [reflexivity|].
    change LINE_WIDTH with 24. unfold Qceiling, Qfloor.
    change (- (inject_Z (byteSize content) / inject_Z 24))%Q
      with (- (byteSize content * 1) # 24)%Q.
    cbv beta iota zeta. unfold byteSize.
    pose proof (Z.div_mod (- (Z.of_nat (length content) * 1)) 24 ltac:(lia)).
    pose proof (Z.mod_pos_bound (- (Z.of_nat (length content) * 1)) 24
                  ltac:(lia)).
    lia. }
  rewrite Hn.
  set (h0 := set_currentLine 0 (set_maxLine _ h)).
  assert (Hs0 : Session content h0 w).
  { destruct Hs as [? ? ? ?]. split; assumption. }
  destruct (printLine_spec content h0 w Hs0 Hcur)
    as (start & buf & Hp & Hs' & Hb).
  exists start, buf. rewrite Hp.
  split; [unfold lineAt, spacingOf; reflexivity|].
  split; [exact Hs' | apply Hb].
Qed.

End Signal.

(** When the reader of the output goes away after [k] of the scheduled
    lines, with more lines still to come, the dump stops there: the first
    line and [k] more have been written, the handler closes the descriptor
    of the session and the process ends without an exception. *)
Theorem sigpipe_stops_dump (content : list byte) (p bs : string)
    (startOffset : Z) (hexa offset : bool) (w : World) (k : nat) :
  files w !! p = Some (RegularFile content) ->
  0 < byteSize content ->
  0 <= startOffset ->
  is_Some (descriptors w !! 0) ->
  (S k < lineCount content)%nat ->
  exists h w1 n again h1 w2 h2 w3,
    openFile (newHexaFile p bs startOffset hexa offset) w = (Ret tt, h, w1) /\
    fd h = Some n /\
    descriptors w1 !! n = Some content /\
    print h w1 = (Ret again, h1, w2) /\
    runUntilSignal k again h1 w2 = (true, (Ret tt, Some h2, w3)) /\
    console w3
    = console w1 ++ linesFrom (isWindows w) h content (currentOffset h) (S k) /\
    descriptors w3 !! n = None.
Proof.
  intros Hfile Hsize Hstart Hstdin Hk.
  pose proof (freshDescriptor_nonzero (descriptors w) Hstdin) as Hn.
  rewrite (openFile_spec content) by assumption.
  set (n := freshDescriptor (descriptors w)) in *.
  set (w1 := logged _ _). set (h := opened _ _ _ _ _ _ _).
  assert (Hdesc : descriptors w1 !! n = Some content)
    by apply lookup_insert_eq.
  assert (Hs : Session content h w1).
  { apply Session_logged, Session_opened.
    - unfold startAfterCheck. destruct (startOffset >=? _); lia.
    - cbn [descriptors set_descriptors]. apply lookup_insert_eq. }
  destruct (print_spec_session content h w1 Hs ltac:(reflexivity))
    as (start & buf & Hp & Hs1 & Hb).
  set (h1 := afterLine start buf _) in *.
  set (w2 := emit _ w1) in *.
  destruct (runUntilSignal_spec content k h1 w2 n) as (h2 & Hrun).
  - now apply Session_emit.
  - change (bufferStart h1) with start.
    change (currentOffset h1) with (currentOffset h + LINE_WIDTH). exact Hb.
  - reflexivity.
  - exact Hn.
  - change (maxLine h1) with (Z.of_nat (lineCount content)).
    change (currentLine h1) with (0 + 1). lia.
  - exists h, w1, n. eexists. exists h1, w2, h2. eexists.
    split; [reflexivity|]. split; [reflexivity|]. split; [exact Hdesc|].
    split; [exact Hp|].
    change (currentLine h1 <? maxLine h1)
      with (0 + 1 <? Z.of_nat (lineCount content)) in Hrun.
    split; [exact Hrun|].
    split.
    + cbn [console set_descriptors logged]. unfold w2.
      cbn [console emit]. rewrite linesFrom_S, <- app_assoc.
      change (isWindows (emit _ w1)) with (isWindows w).
      change (currentOffset h1) with (currentOffset h + LINE_WIDTH).
      rewrite (linesFrom_ext content _ h1 h) by reflexivity.
      reflexivity.
    + cbn [descriptors set_descriptors]. apply lookup_delete_eq.
Qed.

Lemma sigpipe_stops_dump_witness :
  exists h w1 n again h1 w2 h2 w3,
    openFile (newHexaFile "abc.bin" "8" 0 true true)
             (worldWith {[ "abc.bin" := RegularFile sixtyBytes ]})
    = (Ret tt, h, w1) /\
    fd h = Some n /\
    descriptors w1 !! n = Some sixtyBytes /\
    print h w1 = (Ret again, h1, w2) /\
    runUntilSignal 1 again h1 w2 = (true, (Ret tt, Some h2, w3)) /\
    console w3
    = console w1
      ++ linesFrom
           (isWindows (worldWith {[ "abc.bin" := RegularFile sixtyBytes ]}))
           h sixtyBytes (currentOffset h) 2 /\
    descriptors w3 !! n = None.
Proof.
  apply (sigpipe_stops_dump sixtyBytes "abc.bin" "8" 0 true true
           (worldWith {[ "abc.bin" := RegularFile sixtyBytes ]}) 1).
  - reflexivity.
  - reflexivity.
  - lia.
  - exists []. reflexivity.
  - vm_compute. lia.
Defined.

(** ** The offset column down the dump *)

(** With the offset column shown, line [i] of the dump of a file, counted
    from 0, begins with the offset [start + 24 * i] as [convertOffsetTotHexa]
    writes it, then three spaces: the offsets printed go up by 24 from the
    start offset, also on the lines that reach beyond the end of the file. *)
Theorem dump_offset_columns (content : list byte) (p bs : string)
    (startOffset : Z) (hexa : bool) (w : World) (fuel i : nat) :
  files w !! p = Some (RegularFile content) ->
  0 < byteSize content ->
  0 <= startOffset ->
  (lineCount content <= fuel)%nat ->
  (i < lineCount content)%nat ->
  exists h w1 h' w2 lines rest,
    openFile (newHexaFile p bs startOffset hexa true) w = (Ret tt, h, w1) /\
    printAll fuel h w1 = Some (Ret tt, h', w2) /\
    console w2 = console w1 ++ lines /\
    lines !! i
    = Some (Line (convertOffsetTotHexa
                    (startAfterCheck content startOffset + 24 * Z.of_nat i)
                  +:+ "   " +:+ rest)).
Proof.
  intros Hfile Hsize Hstart Hfuel Hi.
  destruct (open_print_spec content p bs startOffset hexa true w fuel
              Hfile Hsize Hstart Hfuel) as (Hopen & h' & Hprint).
  set (h := opened _ _ _ _ _ _ _) in *.
  destruct (lineAt_offset_column (isWindows w) h content
              (startAfterCheck content startOffset + 24 * Z.of_nat i) eq_refl)
    as (rest & Hrest).
  eexists _, _, h', _, _, rest.
  split; [exact Hopen|]. split; [exact Hprint|]. split; [reflexivity|].
  rewrite lookup_linesFrom by assumption.
  change LINE_WIDTH with 24. now rewrite Hrest.
Qed.

Lemma dump_offset_columns_witness :
  exists h w1 h' w2 lines rest,
    openFile (newHexaFile "abc.bin" "8" 0 true true)
             (worldWith {[ "abc.bin" := RegularFile sixtyBytes ]})
    = (Ret tt, h, w1) /\
    printAll 3 h w1 = Some (Ret tt, h', w2) /\
    console w2 = console w1 ++ lines /\
    lines !! 2%nat
    = Some (Line (convertOffsetTotHexa
                    (startAfterCheck sixtyBytes 0 + 24 * Z.of_nat 2)
                  +:+ "   " +:+ rest)).
Proof.
  apply (dump_offset_columns sixtyBytes "abc.bin" "8" 0 true
           (worldWith {[ "abc.bin" := RegularFile sixtyBytes ]}) 3 2).
  - reflexivity.
  - reflexivity.
  - lia.
  - vm_compute. lia.
  - vm_compute. lia.
Defined.
